(** * opi/crud: the generic list handler and the default response writer

    A shallow embedding of [crud/list.go], [crud/errors.go] and
    [crud/response.go], and the properties of the request pipeline
    decode -> validate -> paginate -> List -> Count -> respond. *)

From Stdlib Require Import ZArith Lia Ascii String.
From stdpp Require Import base option list strings gmap.

Local Open Scope Z_scope.
#[local] Set Warnings "-register-all".

(** ** Go's [int] and [int64]

    [int] is taken at 64 bits (amd64, arm64).  Arithmetic wraps around in
    two's complement; the quotient truncates towards zero and a zero
    divisor is a run-time panic. *)
Module GoInt.

Definition bits : Z := 64.
Definition MinInt : Z := - 2 ^ (bits - 1).
Definition MaxInt : Z := 2 ^ (bits - 1) - 1.

Definition in_range (z : Z) : Prop := MinInt <= z <= MaxInt.

Definition wrap (z : Z) : Z :=
  (z - MinInt) mod 2 ^ bits + MinInt.

Definition add (a b : Z) : Z := wrap (a + b).
Definition sub (a b : Z) : Z := wrap (a - b).
Definition mul (a b : Z) : Z := wrap (a * b).

(** [a / b]: [None] stands for the panic "integer divide by zero". *)
Definition quo (a b : Z) : option Z :=
  if Z.eqb b 0 then None else Some (wrap (Z.quot a b)).

End GoInt.

(** ** Dynamic values ([interface{}] / [any])

    Only the dynamic types this package builds or forwards: the untyped
    nil, [int], [int64], [string], the item slice [[]T],
    [map[string]interface{}] and the [ErrorResponse] struct. *)

(** [ErrorResponse], response.go; [D] is the type of the [Details] field
    ([interface{}]). *)
Record ErrorResponse_ (D : Type) : Type := mkErrorResponse {
  Status : Z;          (* json:"status" *)
  Message : string;    (* json:"message" *)
  Details : D          (* json:"details,omitempty" *)
}.
Arguments mkErrorResponse {D} _ _ _.
Arguments Status {D} _.
Arguments Message {D} _.
Arguments Details {D} _.

Inductive any (T : Type) : Type :=
  | Nil
  | Int (n : Z)
  | Int64 (n : Z)
  | Str (s : string)
  | Slice (items : list T)
  | Map (m : gmap string (any T))
  | Struct (e : ErrorResponse_ (any T)).
Arguments Nil {T}.
Arguments Int {T} n.
Arguments Int64 {T} n.
Arguments Str {T} s.
Arguments Slice {T} items.
Arguments Map {T} m.
Arguments Struct {T} e.

Abbreviation ErrorResponse T := (ErrorResponse_ (any T)).

(** ** net/http and friends: what the package uses of them *)

Definition StatusOK : Z := 200.
Definition StatusBadRequest : Z := 400.
Definition StatusInternalServerError : Z := 500.

(** [time.Duration] counts nanoseconds. *)
Definition Second : Z := 1000000000.

(** [context.Context]: the request's context and the timeouts laid on it. *)
Inductive Context : Type :=
  | Background
  | WithTimeout (parent : Context) (d : Z).

(** [url.Values], [map[string][]string]. *)
Abbreviation Values := (gmap string (list string)).

(** The fields of [*http.Request] that [Handle] reads. *)
Record Request : Type := mkRequest {
  Method : string;
  Path : string;          (* r.URL.Path *)
  RemoteAddr : string;
  Query : Values;         (* r.URL.Query() *)
  Ctx : Context           (* r.Context() *)
}.

(** [PaginatedQuery], list.go:
    Page     int `form:"page" validate:"required,min=1"`
    PageSize int `form:"page_size" validate:"required,min=1,max=100"` *)
Record PaginatedQuery : Type := mkPaginatedQuery {
  Page : Z;
  PageSize : Z
}.

(** How a run ends: it returns, or it panics with a message. *)
Inductive outcome (X : Type) : Type :=
  | Returned (x : X)
  | Panicked (msg : string).
Arguments Returned {X} x.
Arguments Panicked {X} msg.

Section Crud.

(** [T] is the item type. *)
Context {T : Type}.

(** *** errors.go

    A value of interface [error]: the text [Error()] returns and, when
    the dynamic type also has a method [Details() interface{}], what
    that method returns. *)
Record error : Type := mkError {
  err_Error : string;
  err_Details : option (any T)
}.

(** [errors.New]. *)
Definition errors_New (text : string) : error :=
  {| err_Error := text; err_Details := None |}.

Definition ErrNotFound : error := errors_New "not found".
Definition ErrConflict : error := errors_New "conflict".
Definition ErrBadRequest : error := errors_New "bad request".
Definition ErrInternal : error := errors_New "internal server error".

(** *** log/slog

    The process log.  An attribute value is any Go value; [Handle] logs
    its clock readings too, so the clock is kept next to the log. *)
Inductive level : Type := LevelDebug | LevelError.

Inductive attr : Type := Attr (X : Type) (x : X).

Record record : Type := mkRecord {
  rec_level : level;
  rec_msg : string;
  rec_attrs : list (string * attr)
}.

Record sys : Type := mkSys {
  log : list record;     (* oldest first *)
  clock : nat -> Z;      (* the successive readings of time.Now() *)
  reads : nat            (* how many readings were taken *)
}.

Definition slog (l : level) (msg : string) (attrs : list (string * attr))
    (s : sys) : sys :=
  {| log := log s ++ [mkRecord l msg attrs]; clock := clock s; reads := reads s |}.

Definition time_Now (s : sys) : Z * sys :=
  (clock s (reads s), {| log := log s; clock := clock s; reads := S (reads s) |}).

(** [time.Since(t)] is [time.Now().Sub(t)]. *)
Definition time_Since (t : Z) (s : sys) : Z * sys :=
  let '(now, s) := time_Now s in (now - t, s).

(** *** http.ResponseWriter

    The operations the package performs on the writer it is handed:
    setting a header, writing the status line, encoding a value as JSON
    into the body ([json.NewEncoder(w).Encode(v)], which reports marshal
    and write failures) and [http.Error(w, text, code)]. *)
Class HttpResponseWriter (R : Type) : Type := {
  Header_Set : R -> string -> string -> R;
  WriteHeader : R -> Z -> R;
  json_Encode : R -> any T -> R * option error;
  http_Error : R -> string -> Z -> R
}.

(** *** response.go *)

(** [ResponseWriter]: the interface. [W] is the implementing type, [R]
    the [http.ResponseWriter] it writes to. *)
Class ResponseWriter (W R : Type) : Type := {
  Error : W -> R -> error -> Z -> sys -> W * R * sys;
  Response : W -> R -> any T -> Z -> sys -> W * R * sys * option error
}.

(** [type DefaultResponseWriter struct{}] *)
Inductive DefaultResponseWriter : Type := mkDefaultResponseWriter.

Section Default.
Context {R : Type} `{!HttpResponseWriter R}.

Definition DefaultResponseWriter_Response (w : DefaultResponseWriter)
    (writer : R) (v : any T) (status : Z) : R * option error :=
  let writer := Header_Set writer "Content-Type" "application/json" in
  let writer := WriteHeader writer status in
  match v with
  | Nil => (writer, None)
  | _ => json_Encode writer v
  end.

Definition DefaultResponseWriter_Error (w : DefaultResponseWriter)
    (writer : R) (err : error) (status : Z) (s : sys) : R * sys :=
  let res := {| Status := status; Message := err_Error err; Details := Nil |} in
  (* If the error implements the Details() method, include the details
     in the response *)
  let res :=
    match err_Details err with
    | Some detailed =>
        {| Status := Status res; Message := Message res; Details := detailed |}
    | None => res
    end in
  let '(writer, err) := DefaultResponseWriter_Response w writer (Struct res) status in
  match err with
  | Some err =>
      let s := slog LevelError "unable to write error response"
                 [("status", Attr Z status); ("error", Attr error err)] s in
      (http_Error writer (err_Error ErrInternal) StatusInternalServerError, s)
  | None => (writer, s)
  end.

#[export] Instance DefaultResponseWriter_ResponseWriter :
    ResponseWriter DefaultResponseWriter R := {
  Error w writer err status s :=
    let '(writer, s) := DefaultResponseWriter_Error w writer err status s in
    (w, writer, s);
  Response w writer v status s :=
    let '(writer, err) := DefaultResponseWriter_Response w writer v status in
    (w, writer, s, err)
}.
End Default.

(** *** list.go *)

(** [Q] is the query type.  What the handler needs of it is fixed by the
    type alone: its zero value, how [form.Decoder.Decode] fills it from
    the query string, what [validator.Validate.Struct] says of it (both
    driven by the struct tags), and whether its method set has
    [GetPagination() PaginatedQuery]. *)
Class QueryType (Q : Type) : Type := {
  zero : Q;
  form_Decode : Q -> Values -> Q * option error;
  validator_Struct : Q -> option error;
  GetPagination : option (Q -> PaginatedQuery)
}.

Context {Q : Type} `{!QueryType Q}.

(** [Listable[T, Q]]: the interface; [A] is the implementing type, whose
    value the calls may change. *)
Class Listable (A : Type) : Type := {
  List : A -> Context -> Q -> Z -> Z -> A * (list T * option error);
  Count : A -> Context -> Q -> A * (Z * option error)
}.

Context {A W R : Type}.
Context `{!Listable A} `{!HttpResponseWriter R} `{!ResponseWriter W R}.

(** [ListHandler[T, Q]] *)
Record ListHandler : Type := mkListHandler {
  querier : A;
  decoder : Q -> Values -> Q * option error;
  validate : Q -> option error;
  writer : W
}.

Definition NewListHandler (querier : A) (writer : W) : ListHandler :=
  {| querier := querier;
     decoder := form_Decode;
     validate := validator_Struct;
     writer := writer |}.

(** The calls [Handle] makes on its two collaborators, with their
    arguments. *)
Inductive call : Type :=
  | CallList (ctx : Context) (query : Q) (offset limit : Z)
  | CallCount (ctx : Context) (query : Q)
  | CallError (err : error) (status : Z)
  | CallResponse (v : any T) (status : Z).

(** What one run of [Handle] works on: the handler behind [h], the
    [http.ResponseWriter] behind [w], the process log and clock, and the
    calls made so far (oldest first). *)
Record world : Type := mkWorld {
  handler : ListHandler;
  rw : R;
  env : sys;
  calls : list call
}.

Definition M (X : Type) : Type := world -> outcome X * world.

Definition ret {X} (x : X) : M X := fun wd => (Returned x, wd).

Definition bind {X Y} (m : M X) (k : X -> M Y) : M Y :=
  fun wd =>
    match m wd with
    | (Returned x, wd') => k x wd'
    | (Panicked msg, wd') => (Panicked msg, wd')
    end.

Definition panic {X} (msg : string) : M X := fun wd => (Panicked msg, wd).

Notation "x <- m ;; k" := (bind m (fun x => k))
  (at level 100, m at next level, k at level 200, right associativity).
Notation "m ;;; k" := (bind m (fun _ => k))
  (at level 100, k at level 200, right associativity).

(** Effects on the parts of the world. *)
Definition on_sys {X} (f : sys -> X * sys) : M X :=
  fun wd =>
    let '(x, s) := f (env wd) in
    (Returned x, {| handler := handler wd; rw := rw wd; env := s; calls := calls wd |}).

Definition slog_Debug (msg : string) (attrs : list (string * attr)) : M unit :=
  on_sys (fun s => (tt, slog LevelDebug msg attrs s)).

Definition slog_Error (msg : string) (attrs : list (string * attr)) : M unit :=
  on_sys (fun s => (tt, slog LevelError msg attrs s)).

Definition the_handler : M ListHandler := fun wd => (Returned (handler wd), wd).

(** [h.querier.List(ctx, query, offset, limit)] *)
Definition querier_List (ctx : Context) (query : Q) (offset limit : Z)
    : M (list T * option error) :=
  fun wd =>
    let h := handler wd in
    let '(a, res) := List (querier h) ctx query offset limit in
    (Returned res,
     {| handler := {| querier := a; decoder := decoder h;
                      validate := validate h; writer := writer h |};
        rw := rw wd; env := env wd;
        calls := calls wd ++ [CallList ctx query offset limit] |}).

(** [h.querier.Count(ctx, query)] *)
Definition querier_Count (ctx : Context) (query : Q) : M (Z * option error) :=
  fun wd =>
    let h := handler wd in
    let '(a, res) := Count (querier h) ctx query in
    (Returned res,
     {| handler := {| querier := a; decoder := decoder h;
                      validate := validate h; writer := writer h |};
        rw := rw wd; env := env wd;
        calls := calls wd ++ [CallCount ctx query] |}).

(** [h.writer.Error(w, err, status)] *)
Definition writer_Error (err : error) (status : Z) : M unit :=
  fun wd =>
    let h := handler wd in
    let '(wr, w, s) := Error (writer h) (rw wd) err status (env wd) in
    (Returned tt,
     {| handler := {| querier := querier h; decoder := decoder h;
                      validate := validate h; writer := wr |};
        rw := w; env := s;
        calls := calls wd ++ [CallError err status] |}).

(** [h.writer.Response(w, v, status)] *)
Definition writer_Response (v : any T) (status : Z) : M (option error) :=
  fun wd =>
    let h := handler wd in
    let '(wr, w, s, err) := Response (writer h) (rw wd) v status (env wd) in
    (Returned err,
     {| handler := {| querier := querier h; decoder := decoder h;
                      validate := validate h; writer := wr |};
        rw := w; env := s;
        calls := calls wd ++ [CallResponse v status] |}).

(** [offset/limit]: a zero [limit] is the run-time panic. *)
Definition int_quo (a b : Z) : M Z :=
  match GoInt.quo a b with
  | Some q => ret q
  | None => panic "runtime error: integer divide by zero"
  end.

(** [func (h *ListHandler[T, Q]) Handle(w http.ResponseWriter, r *http.Request)].
    The receiver and [w] are references: they are the [handler] and [rw]
    of the world.  [defer cancel()] only releases the timer of [ctx]; it
    makes no call on a collaborator and is left out. *)
Definition Handle (r : Request) : M unit :=
  startTime <- on_sys time_Now ;;
  slog_Debug "list.start"
    [("method", Attr string (Method r)); ("path", Attr string (Path r));
     ("remote_add", Attr string (RemoteAddr r))] ;;;
  (* set timeout for the entire request *)
  let ctx := WithTimeout (Ctx r) (30 * Second) in
  h <- the_handler ;;
  (* decode the query params *)
  let '(query, err) := decoder h zero (Query r) in
  match err with
  | Some err =>
      slog_Error "unable to decode query params" [("error", Attr error err)] ;;;
      slog_Debug "query params decoding" [("query_params", Attr Values (Query r))] ;;;
      writer_Error ErrBadRequest StatusBadRequest
  | None =>
  (* validate the query params *)
  match validate h query with
  | Some err =>
      slog_Error "unable to validate query params" [("error", Attr error err)] ;;;
      slog_Debug "query params decoding" [("query_params", Attr Values (Query r))] ;;;
      writer_Error ErrBadRequest StatusBadRequest
  | None =>
  let '(offset, limit) :=
    match GetPagination with
    | Some GetPagination =>
        let pagination := GetPagination query in
        (GoInt.mul (GoInt.sub (Page pagination) 1) (PageSize pagination),
         PageSize pagination)
    | None => (0, 0)
    end in
  (* list the items with pagination *)
  listed <- querier_List ctx query offset limit ;;
  let '(items, err) := listed in
  match err with
  | Some err =>
      slog_Error "unable to list items" [("error", Attr error err)] ;;;
      slog_Debug "listing"
        [("query", Attr Q query); ("offset", Attr Z offset); ("limit", Attr Z limit)] ;;;
      writer_Error ErrInternal StatusInternalServerError
  | None =>
  (* count the total number of items *)
  counted <- querier_Count ctx query ;;
  let '(total, err) := counted in
  match err with
  | Some err =>
      slog_Error "unable to count items" [("error", Attr error err)] ;;;
      slog_Debug "counting" [("query", Attr Q query)] ;;;
      writer_Error ErrInternal StatusInternalServerError
  | None =>
  (* write the response *)
  page <- int_quo offset limit ;;
  let res : gmap string (any T) :=
    {[ "items" := Slice items;
       "pagination" := Map
         {[ "total" := Int64 total;
            "page" := Int (GoInt.add page 1);
            "page_size" := Int limit ]} ]} in
  err <- writer_Response (Map res) StatusOK ;;
  match err with
  | Some err =>
      slog_Error "unable to write response" [("error", Attr error err)] ;;;
      slog_Debug "writing response" [("response", Attr (any T) (Map res))]
  | None => ret tt
  end ;;;
  duration <- on_sys (time_Since startTime) ;;
  slog_Debug "list.complete" [("duration", Attr Z duration)]
  end end end end.

(** The [offset] and [limit] that [Handle] derives from a decoded
    query (list.go, lines 102 to 107). *)
Definition window (query : Q) : Z * Z :=
  match GetPagination with
  | Some GetPagination =>
      let pagination := GetPagination query in
      (GoInt.mul (GoInt.sub (Page pagination) 1) (PageSize pagination),
       PageSize pagination)
  | None => (0, 0)
  end.

(** The context [Handle] hands to the accessor. *)
Definition handle_ctx (r : Request) : Context :=
  WithTimeout (Ctx r) (30 * Second).

(** [ListResult]: the success payload, of items, total, echoed page and
    page size. *)
Definition ListResult (items : list T) (total page page_size : Z) : any T :=
  Map {[ "items" := Slice items;
         "pagination" := Map
           {[ "total" := Int64 total;
              "page" := Int page;
              "page_size" := Int page_size ]} ]}.

(** The handler after its collaborators moved to [a] and [wr]. *)
Definition with_state (h : ListHandler) (a : A) (wr : W) : ListHandler :=
  {| querier := a; decoder := decoder h; validate := validate h; writer := wr |}.

(** The error the accessor answers a request with, when the request
    gets that far and the accessor fails: the one of [List], or else the
    one of [Count]. *)
Definition accessor_error (h : ListHandler) (r : Request) : option error :=
  let '(query, err) := decoder h zero (Query r) in
  match err, validate h query with
  | None, None =>
      let '(offset, limit) := window query in
      let '(a, (_, err)) := List (querier h) (handle_ctx r) query offset limit in
      match err with
      | Some e => Some e
      | None => snd (snd (Count a (handle_ctx r) query))
      end
  | _, _ => None
  end.

(** Calls on the accessor, and calls on the response writer. *)
Definition is_accessor_call (c : call) : bool :=
  match c with
  | CallList _ _ _ _ | CallCount _ _ => true
  | CallError _ _ | CallResponse _ _ => false
  end.

Definition is_List_call (c : call) : bool :=
  match c with
  | CallList _ _ _ _ => true
  | _ => false
  end.

(** A field of the [pagination] block of a success payload. *)
Definition pagination_field (key : string) (v : any T) : option (any T) :=
  match v with
  | Map m =>
      match m !! "pagination"%string with
      | Some (Map p) => p !! key
      | _ => None
      end
  | _ => None
  end.

Definition writer_calls (cs : list call) : list call :=
  List.filter (fun c => negb (is_accessor_call c)) cs.

(** A response writer that treats [w] the same whatever the log and the
    clock are. *)
Definition log_oblivious : Prop :=
  (forall (wr : W) (w : R) err status s s',
     snd (fst (Error wr w err status s)) = snd (fst (Error wr w err status s'))) /\
  (forall (wr : W) (w : R) v status s s',
     snd (fst (fst (Response wr w v status s)))
     = snd (fst (fst (Response wr w v status s')))).

(** One request served by handler [h] writing to [w], from log and clock
    [s]. *)
Definition serve (h : ListHandler) (w : R) (s : sys) (r : Request)
    : outcome unit * world :=
  Handle r {| handler := h; rw := w; env := s; calls := [] |}.

End Crud.

(** ** Concrete collaborators *)

(** *** A recording [http.ResponseWriter]

    It keeps the operations performed on it, oldest first.  [encode_err]
    says for which values the JSON encoding, or the write of it, fails. *)
Inductive op {T : Type} : Type :=
  | OpHeaderSet (key value : string)
  | OpWriteHeader (statusCode : Z)
  | OpEncode (v : any T)
  | OpHttpError (text : string) (code : Z).

Record Recorder {T : Type} : Type := mkRecorder {
  ops : list (@op T);
  encode_err : any T -> option (@error T)
}.

Definition record_op {T} (o : @op T) (rec : @Recorder T) : Recorder :=
  {| ops := ops rec ++ [o]; encode_err := encode_err rec |}.

#[export] Instance Recorder_HttpResponseWriter {T} :
    HttpResponseWriter (T:=T) Recorder := {
  Header_Set rec key value := record_op (OpHeaderSet key value) rec;
  WriteHeader rec statusCode := record_op (OpWriteHeader statusCode) rec;
  json_Encode rec v := (record_op (OpEncode v) rec, encode_err rec v);
  http_Error rec text code := record_op (OpHttpError text code) rec
}.

(** [httptest.NewRecorder()]: nothing written yet, every write succeeds. *)
Definition NewRecorder {T} : @Recorder T :=
  {| ops := []; encode_err := fun _ => None |}.

(** *** [MockQuerier], list_test.go

    The results set up with [On(...).Return(...)], and the names of the
    methods called so far. *)
Record MockQuerier {T : Type} : Type := mkMockQuerier {
  List_Return : list T * option (@error T);
  Count_Return : Z * option (@error T);
  Calls : list string
}.

#[export] Instance MockQuerier_Listable {T Q} : Listable (T:=T) (Q:=Q) MockQuerier := {
  List m ctx query offset limit :=
    ({| List_Return := List_Return m; Count_Return := Count_Return m;
        Calls := Calls m ++ ["List"] |}, List_Return m);
  Count m ctx query :=
    ({| List_Return := List_Return m; Count_Return := Count_Return m;
        Calls := Calls m ++ ["Count"] |}, Count_Return m)
}.

(** *** Query types

    The two libraries that fill and check a query are not part of the
    repository; what they do on the query types below follows the struct
    tags of [PaginatedQuery] and the spec. *)

(** [strconv.ParseInt(s, 10, 64)]: an optional sign and decimal digits, in
    the range of [int64]. *)
Definition digit (c : ascii) : option Z :=
  let n := Z.of_nat (nat_of_ascii c) in
  if (48 <=? n) && (n <=? 57) then Some (n - 48) else None.

Fixpoint digits (s : string) (acc : Z) : option Z :=
  match s with
  | EmptyString => Some acc
  | String c s' =>
      match digit c with
      | Some d => digits s' (10 * acc + d)
      | None => None
      end
  end.

Definition ParseInt (s : string) : option Z :=
  let '(neg, body) :=
    match s with
    | String "-" s' => (true, s')
    | String "+" s' => (false, s')
    | _ => (false, s)
    end in
  match body with
  | EmptyString => None
  | _ =>
      match digits body 0 with
      | Some n =>
          let v := if neg : bool then - n else n in
          if (GoInt.MinInt <=? v) && (v <=? GoInt.MaxInt) then Some v else None
      | None => None
      end
  end.

(** Modelled from the spec: the decoding of one [int] field by
    github.com/go-playground/form, which is outside the repository.  The
    field keeps its value when the key is missing or empty, takes the
    number when the first value is one, and a malformed value (a
    non-numeric [page], say) is a decode failure. *)
Definition decode_int (values : Values) (key : string) (cur : Z) : Z * bool :=
  match values !! key with
  | Some (v :: _) =>
      if String.eqb v "" then (cur, true)
      else match ParseInt v with
           | Some n => (n, true)
           | None => (cur, false)
           end
  | _ => (cur, true)
  end.

Definition decode_string (values : Values) (key : string) (cur : string) : string :=
  match values !! key with
  | Some (v :: _) => v
  | _ => cur
  end.

(** The constraints of a [validate:"..."] tag on an [int] field. *)
Inductive rule : Type :=
  | required
  | min (n : Z)
  | max (n : Z).

(** Modelled from the spec: the checks of
    github.com/go-playground/validator, which is outside the repository:
    [required] refuses the zero value, [min] and [max] bound the number
    ([page] an integer at least 1, [page_size] an integer from 1 to 100). *)
Definition holds (v : Z) (r : rule) : bool :=
  match r with
  | required => negb (v =? 0)
  | min n => n <=? v
  | max n => v <=? n
  end.

(** The tags of [PaginatedQuery], list.go. *)
Definition Page_validate : list rule := [required; min 1].
Definition PageSize_validate : list rule := [required; min 1; max 100].

Section Queries.
Context {T : Type}.

Definition decode_PaginatedQuery (p : PaginatedQuery) (values : Values)
    : PaginatedQuery * bool :=
  let '(page, ok1) := decode_int values "page" (Page p) in
  let '(page_size, ok2) := decode_int values "page_size" (PageSize p) in
  ({| Page := page; PageSize := page_size |}, ok1 && ok2).

Definition validate_PaginatedQuery (p : PaginatedQuery) : option (@error T) :=
  if forallb (holds (Page p)) Page_validate
     && forallb (holds (PageSize p)) PageSize_validate
  then None
  else Some (errors_New "validation failed").

(** [TestQuery], list_test.go: [PaginatedQuery] embedded, a [name]
    filter, and the method [GetPagination]. *)
Record TestQuery : Type := mkTestQuery {
  TestQuery_PaginatedQuery : PaginatedQuery;
  TestQuery_Name : string        (* form:"name" *)
}.

Definition TestQuery_GetPagination (q : TestQuery) : PaginatedQuery :=
  TestQuery_PaginatedQuery q.

#[export] Instance TestQuery_QueryType : QueryType (T:=T) TestQuery := {
  zero := {| TestQuery_PaginatedQuery := {| Page := 0; PageSize := 0 |};
             TestQuery_Name := "" |};
  form_Decode q values :=
    let '(p, ok) := decode_PaginatedQuery (TestQuery_PaginatedQuery q) values in
    ({| TestQuery_PaginatedQuery := p;
        TestQuery_Name := decode_string values "name" (TestQuery_Name q) |},
     if ok then None else Some (errors_New "invalid integer value"));
  validator_Struct q := validate_PaginatedQuery (TestQuery_PaginatedQuery q);
  GetPagination := Some TestQuery_GetPagination
}.

(** [UserQuery], the README's quick start: the same fields, and no
    [GetPagination] method. *)
Record UserQuery : Type := mkUserQuery {
  UserQuery_PaginatedQuery : PaginatedQuery;
  UserQuery_Name : string        (* form:"name" *)
}.

#[export] Instance UserQuery_QueryType : QueryType (T:=T) UserQuery := {
  zero := {| UserQuery_PaginatedQuery := {| Page := 0; PageSize := 0 |};
             UserQuery_Name := "" |};
  form_Decode q values :=
    let '(p, ok) := decode_PaginatedQuery (UserQuery_PaginatedQuery q) values in
    ({| UserQuery_PaginatedQuery := p;
        UserQuery_Name := decode_string values "name" (UserQuery_Name q) |},
     if ok then None else Some (errors_New "invalid integer value"));
  validator_Struct q := validate_PaginatedQuery (UserQuery_PaginatedQuery q);
  GetPagination := None
}.

End Queries.

(** [GET /?<values>] as [httptest.NewRequest] builds it. *)
Definition NewRequest (values : Values) : Request :=
  {| Method := "GET"; Path := "/"; RemoteAddr := "192.0.2.1:1234";
     Query := values; Ctx := Background |}.

(** A clock that starts at zero and moves a millisecond a reading. *)
Definition boot : sys :=
  {| log := []; clock := fun n => Z.of_nat n * 1000000; reads := 0 |}.

(** *** The handlers and requests of list_test.go, and some more *)

(** A querier whose [List] answers [listed] and whose [Count] answers
    [counted]. *)
Definition mock (listed : list string * option (@error string))
    (counted : Z * option (@error string)) : @MockQuerier string :=
  {| List_Return := listed; Count_Return := counted; Calls := [] |}.

(** [NewListHandler[string, TestQuery](querier, writer)] with the default
    writer. *)
Definition test_handler (querier : @MockQuerier string)
    : @ListHandler string TestQuery MockQuerier DefaultResponseWriter :=
  NewListHandler querier mkDefaultResponseWriter.

(** [NewListHandler[string, UserQuery](querier, writer)]. *)
Definition user_handler (querier : @MockQuerier string)
    : @ListHandler string UserQuery MockQuerier DefaultResponseWriter :=
  NewListHandler querier mkDefaultResponseWriter.

(** [/?page=<page>&page_size=<page_size>] *)
Definition page_request (page page_size : string) : Request :=
  NewRequest {[ "page" := [page]; "page_size" := [page_size] ]}.

Definition assert_AnError : @error string :=
  errors_New "assert.AnError general error for testing".

(** * Properties *)

Module GoIntFacts.
Import GoInt.

Lemma MinInt_eq : MinInt = -9223372036854775808.
Proof. reflexivity. Qed.

Lemma MaxInt_eq : MaxInt = 9223372036854775807.
Proof. reflexivity. Qed.

Lemma modulus_eq : 2 ^ bits = 18446744073709551616.
Proof. reflexivity. Qed.

Lemma wrap_in_range z : in_range (wrap z).
Proof.
  unfold in_range, wrap. rewrite MinInt_eq, MaxInt_eq, modulus_eq.
  pose proof (Z.mod_pos_bound (z - -9223372036854775808) 18446744073709551616).
  lia.
Qed.

Lemma wrap_id z : in_range z -> wrap z = z.
Proof.
  unfold in_range, wrap. rewrite MinInt_eq, MaxInt_eq, modulus_eq. intros Hz.
  rewrite Z.mod_small by lia. lia.
Qed.

(** Without overflow the derived offset is the product itself. *)
Lemma offset_exact page page_size :
  1 <= page -> 1 <= page_size -> (page - 1) * page_size <= MaxInt ->
  mul (sub page 1) page_size = (page - 1) * page_size.
Proof.
  intros Hp Hs Hfit. unfold mul, sub.
  assert (page - 1 <= (page - 1) * page_size) by nia.
  rewrite (wrap_id (page - 1)).
  - apply wrap_id. unfold in_range. rewrite MinInt_eq. split; [nia | lia].
  - unfold in_range. rewrite MinInt_eq. lia.
Qed.

(** The division of the echo undoes the multiplication. *)
Lemma quo_exact page page_size :
  1 <= page <= MaxInt -> 1 <= page_size ->
  quo ((page - 1) * page_size) page_size = Some (page - 1).
Proof.
  intros Hp Hs. unfold quo.
  destruct (Z.eqb_spec page_size 0) as [->|Hne]; [lia|].
  rewrite Z.quot_mul by lia. f_equal.
  apply wrap_id. unfold in_range. rewrite MinInt_eq. lia.
Qed.

Lemma add_exact page :
  1 <= page <= MaxInt -> add (page - 1) 1 = page.
Proof.
  intros Hp. unfold add. replace (page - 1 + 1) with page by lia.
  apply wrap_id. unfold in_range. rewrite MinInt_eq. lia.
Qed.

End GoIntFacts.

(** ** The runs of [Handle], stage by stage *)

Ltac run_Handle :=
  unfold serve, Handle, slog_Debug, slog_Error, int_quo, on_sys, time_Since,
    time_Now, the_handler, querier_List, querier_Count, writer_Error,
    writer_Response, bind, ret, panic, handle_ctx, with_state;
  cbn [handler rw env calls fst snd querier decoder validate writer app
       log clock reads].

Ltac step_Handle :=
  cbn [handler rw env calls fst snd querier decoder validate writer app
       log clock reads].

Section HandleFacts.
Context {T Q : Type} `{!QueryType (T:=T) Q}.
Context {A W R : Type}.
Context `{!Listable (T:=T) (Q:=Q) A} `{!ResponseWriter (T:=T) W R}.

Implicit Types (h : @ListHandler T Q A W) (w : R) (s : sys) (r : Request).
Implicit Types (query : Q) (e : @error T) (a : A).

Lemma serve_decode_error h w s r query e :
  decoder h zero (Query r) = (query, Some e) ->
  exists s1 wr w' s',
    Error (writer h) w ErrBadRequest StatusBadRequest s1 = (wr, w', s') /\
    serve h w s r
    = (Returned tt,
       {| handler := with_state h (querier h) wr; rw := w'; env := s';
          calls := [CallError ErrBadRequest StatusBadRequest] |}).
Proof.
  intros Hdec. run_Handle. rewrite Hdec. step_Handle.
  destruct (Error _ _ _ _ _) as [[wr w'] s'] eqn:HE.
  eexists _, wr, w', s'. split; [exact HE | reflexivity].
Qed.

Lemma serve_validate_error h w s r query e :
  decoder h zero (Query r) = (query, None) ->
  validate h query = Some e ->
  exists s1 wr w' s',
    Error (writer h) w ErrBadRequest StatusBadRequest s1 = (wr, w', s') /\
    serve h w s r
    = (Returned tt,
       {| handler := with_state h (querier h) wr; rw := w'; env := s';
          calls := [CallError ErrBadRequest StatusBadRequest] |}).
Proof.
  intros Hdec Hval. run_Handle. rewrite Hdec, Hval. step_Handle.
  destruct (Error _ _ _ _ _) as [[wr w'] s'] eqn:HE.
  eexists _, wr, w', s'. split; [exact HE | reflexivity].
Qed.

Lemma serve_List_error h w s r query offset limit a items e :
  decoder h zero (Query r) = (query, None) ->
  validate h query = None ->
  window query = (offset, limit) ->
  List (querier h) (handle_ctx r) query offset limit = (a, (items, Some e)) ->
  exists s1 wr w' s',
    Error (writer h) w ErrInternal StatusInternalServerError s1 = (wr, w', s') /\
    serve h w s r
    = (Returned tt,
       {| handler := with_state h a wr; rw := w'; env := s';
          calls := [CallList (handle_ctx r) query offset limit;
                    CallError ErrInternal StatusInternalServerError] |}).
Proof.
  intros Hdec Hval Hwin HList. unfold window in Hwin. cbv zeta in Hwin.
  run_Handle. rewrite Hdec, Hval, Hwin. unfold handle_ctx in HList.
  step_Handle. rewrite HList. step_Handle.
  destruct (Error _ _ _ _ _) as [[wr w'] s'] eqn:HE.
  eexists _, wr, w', s'. split; [exact HE | reflexivity].
Qed.

Lemma serve_Count_error h w s r query offset limit a items a' total e :
  decoder h zero (Query r) = (query, None) ->
  validate h query = None ->
  window query = (offset, limit) ->
  List (querier h) (handle_ctx r) query offset limit = (a, (items, None)) ->
  Count a (handle_ctx r) query = (a', (total, Some e)) ->
  exists s1 wr w' s',
    Error (writer h) w ErrInternal StatusInternalServerError s1 = (wr, w', s') /\
    serve h w s r
    = (Returned tt,
       {| handler := with_state h a' wr; rw := w'; env := s';
          calls := [CallList (handle_ctx r) query offset limit;
                    CallCount (handle_ctx r) query;
                    CallError ErrInternal StatusInternalServerError] |}).
Proof.
  intros Hdec Hval Hwin HList HCount. unfold window in Hwin. cbv zeta in Hwin.
  run_Handle. rewrite Hdec, Hval, Hwin. unfold handle_ctx in HList, HCount.
  step_Handle. rewrite HList. step_Handle. rewrite HCount. step_Handle.
  destruct (Error _ _ _ _ _) as [[wr w'] s'] eqn:HE.
  eexists _, wr, w', s'. split; [exact HE | reflexivity].
Qed.

(** With a zero limit the echo [offset/limit + 1] panics, after both
    accessor calls and before anything is handed to the writer. *)
Lemma serve_divide_by_zero h w s r query offset a items a' total :
  decoder h zero (Query r) = (query, None) ->
  validate h query = None ->
  window query = (offset, 0) ->
  List (querier h) (handle_ctx r) query offset 0 = (a, (items, None)) ->
  Count a (handle_ctx r) query = (a', (total, None)) ->
  exists s1,
    serve h w s r
    = (Panicked "runtime error: integer divide by zero",
       {| handler := with_state h a' (writer h); rw := w; env := s1;
          calls := [CallList (handle_ctx r) query offset 0;
                    CallCount (handle_ctx r) query] |}).
Proof.
  intros Hdec Hval Hwin HList HCount. unfold window in Hwin. cbv zeta in Hwin.
  run_Handle. rewrite Hdec, Hval, Hwin. unfold handle_ctx in HList, HCount.
  step_Handle. rewrite HList. step_Handle. rewrite HCount. step_Handle.
  eexists. reflexivity.
Qed.

Lemma serve_success h w s r query offset limit a items a' total page :
  decoder h zero (Query r) = (query, None) ->
  validate h query = None ->
  window query = (offset, limit) ->
  List (querier h) (handle_ctx r) query offset limit = (a, (items, None)) ->
  Count a (handle_ctx r) query = (a', (total, None)) ->
  GoInt.quo offset limit = Some page ->
  exists s1 wr w' s' err s2,
    Response (writer h) w (ListResult items total (GoInt.add page 1) limit)
      StatusOK s1 = (wr, w', s', err) /\
    serve h w s r
    = (Returned tt,
       {| handler := with_state h a' wr; rw := w'; env := s2;
          calls := [CallList (handle_ctx r) query offset limit;
                    CallCount (handle_ctx r) query;
                    CallResponse (ListResult items total (GoInt.add page 1) limit)
                      StatusOK] |}).
Proof.
  intros Hdec Hval Hwin HList HCount Hquo. unfold window in Hwin. cbv zeta in Hwin.
  run_Handle. rewrite Hdec, Hval, Hwin. unfold handle_ctx in HList, HCount.
  step_Handle. rewrite HList. step_Handle. rewrite HCount. step_Handle. rewrite Hquo.
  step_Handle. fold (ListResult items total (GoInt.add page 1) limit).
  destruct (Response _ _ _ _ _) as [[[wr w'] s'] oe] eqn:HR.
  destruct oe as [e|]; step_Handle.
  - eexists _, wr, w', s', (Some e), _. split; [exact HR | reflexivity].
  - eexists _, wr, w', s', None, _. split; [exact HR | reflexivity].
Qed.

(** C3: when the query string fails decoding, or decodes but fails
    validation, [Handle] makes exactly one call on its collaborators:
    [Error] of the response writer with [ErrBadRequest] and status 400.
    The accessor's [List] and [Count] are never invoked and the accessor
    is left as it was. *)
Theorem C3_bad_request_skips_accessor h w s r :
  snd (decoder h zero (Query r)) <> None \/
  validate h (fst (decoder h zero (Query r))) <> None ->
  let out := serve h w s r in
  fst out = Returned tt /\
  calls (snd out) = [CallError ErrBadRequest 400] /\
  err_Error (@ErrBadRequest T) = "bad request"%string /\
  forallb (fun c => negb (is_accessor_call c)) (calls (snd out)) = true /\
  querier (handler (snd out)) = querier h /\
  exists s1,
    (writer (handler (snd out)), rw (snd out), env (snd out))
    = Error (writer h) w ErrBadRequest 400 s1.
Proof.
  intros Hbad.
  destruct (decoder h zero (Query r)) as [query [e|]] eqn:Hdec.
  - destruct (serve_decode_error h w s r query e Hdec)
      as (s1 & wr & w' & s' & HE & Hrun).
    cbv zeta. rewrite Hrun. cbn. repeat split; try reflexivity.
    exists s1. symmetry. exact HE.
  - cbn in Hbad. destruct (validate h query) as [e|] eqn:Hval.
    + destruct (serve_validate_error h w s r query e Hdec Hval)
        as (s1 & wr & w' & s' & HE & Hrun).
      cbv zeta. rewrite Hrun. cbn. repeat split; try reflexivity.
      exists s1. symmetry. exact HE.
    + destruct Hbad as [Hbad|Hbad]; contradiction.
Qed.

(** C4: when [List] returns an error, [Handle] calls [List] once, then
    [Error] of the response writer with [ErrInternal] and status 500, and
    nothing else: [Count] is not called. *)
Theorem C4_List_error_stops_before_Count h w s r query offset limit a items e :
  decoder h zero (Query r) = (query, None) ->
  validate h query = None ->
  window query = (offset, limit) ->
  List (querier h) (handle_ctx r) query offset limit = (a, (items, Some e)) ->
  let out := serve h w s r in
  fst out = Returned tt /\
  calls (snd out)
  = [CallList (handle_ctx r) query offset limit; CallError ErrInternal 500] /\
  (forall ctx q, CallCount ctx q ∉ calls (snd out)) /\
  exists s1,
    (writer (handler (snd out)), rw (snd out), env (snd out))
    = Error (writer h) w ErrInternal 500 s1.
Proof.
  intros Hdec Hval Hwin HList.
  destruct (serve_List_error h w s r query offset limit a items e
              Hdec Hval Hwin HList) as (s1 & wr & w' & s' & HE & Hrun).
  cbv zeta. rewrite Hrun. cbn. repeat split.
  - intros ctx q Hin. repeat (apply elem_of_cons in Hin as [Hin|Hin]; [discriminate|]).
    by apply elem_of_nil in Hin.
  - exists s1. symmetry. exact HE.
Qed.

(** C5: when [List] succeeds and [Count] returns an error, the only call
    on the response writer is [Error] with [ErrInternal] and status 500:
    no [Response] call is made, and what the writer and the client get
    is what that one [Error] call produces from their initial states,
    whatever items [List] returned. *)
Theorem C5_Count_error_discards_items h w s r query offset limit a items a' total e :
  decoder h zero (Query r) = (query, None) ->
  validate h query = None ->
  window query = (offset, limit) ->
  List (querier h) (handle_ctx r) query offset limit = (a, (items, None)) ->
  Count a (handle_ctx r) query = (a', (total, Some e)) ->
  let out := serve h w s r in
  fst out = Returned tt /\
  calls (snd out)
  = [CallList (handle_ctx r) query offset limit;
     CallCount (handle_ctx r) query;
     CallError ErrInternal 500] /\
  (forall v status, CallResponse v status ∉ calls (snd out)) /\
  exists s1,
    (writer (handler (snd out)), rw (snd out), env (snd out))
    = Error (writer h) w ErrInternal 500 s1.
Proof.
  intros Hdec Hval Hwin HList HCount.
  destruct (serve_Count_error h w s r query offset limit a items a' total e
              Hdec Hval Hwin HList HCount) as (s1 & wr & w' & s' & HE & Hrun).
  cbv zeta. rewrite Hrun. cbn. repeat split.
  - intros v st Hin. repeat (apply elem_of_cons in Hin as [Hin|Hin]; [discriminate|]).
    by apply elem_of_nil in Hin.
  - exists s1. symmetry. exact HE.
Qed.

End HandleFacts.

(** ** Determinism *)

Section DeterminismFacts.
Context {T Q : Type} `{!QueryType (T:=T) Q}.
Context {A W R : Type}.
Context `{!Listable (T:=T) (Q:=Q) A} `{!ResponseWriter (T:=T) W R}.

Implicit Types (h : @ListHandler T Q A W) (w : R) (s : sys) (r : Request).
Implicit Types (query : Q) (a : A).

(** C8: take two invocations of the same handler, on requests with the
    same query string, the accessor being in state [a1] for one and [a2]
    for the other, the logs and clocks being any.  If [List], and [Count]
    after it, return the same results in both, then both invocations end
    the same way and pass the same payloads and statuses, in the same
    order, to the response writer; and a writer that does not look at
    the log leaves the same bytes in [w]. *)
Theorem C8_Handle_deterministic h a1 a2 w s1 s2 r1 r2 :
  Query r1 = Query r2 ->
  (forall query offset limit,
     snd (List a1 (handle_ctx r1) query offset limit)
     = snd (List a2 (handle_ctx r2) query offset limit) /\
     snd (Count (fst (List a1 (handle_ctx r1) query offset limit))
            (handle_ctx r1) query)
     = snd (Count (fst (List a2 (handle_ctx r2) query offset limit))
              (handle_ctx r2) query)) ->
  let out1 := serve (with_state h a1 (writer h)) w s1 r1 in
  let out2 := serve (with_state h a2 (writer h)) w s2 r2 in
  fst out1 = fst out2 /\
  writer_calls (calls (snd out1)) = writer_calls (calls (snd out2)) /\
  (log_oblivious -> rw (snd out1) = rw (snd out2)).
Proof.
  intros HQ Hacc. cbv zeta.
  set (h1 := with_state h a1 (writer h)).
  set (h2 := with_state h a2 (writer h)).
  destruct (decoder h zero (Query r1)) as [query [e|]] eqn:Hdec.
  { assert (Hdec1 : decoder h1 zero (Query r1) = (query, Some e)) by exact Hdec.
    assert (Hdec2 : decoder h2 zero (Query r2) = (query, Some e))
      by (rewrite <- HQ; exact Hdec).
    destruct (serve_decode_error h1 w s1 r1 query e Hdec1)
      as (t1 & ? & ? & ? & HE1 & ->).
    destruct (serve_decode_error h2 w s2 r2 query e Hdec2)
      as (t2 & ? & ? & ? & HE2 & ->).
    split; [reflexivity|]. split; [reflexivity|]. intros [Hobl _].
    specialize (Hobl (writer h) w ErrBadRequest StatusBadRequest t1 t2).
    cbn [writer h1 h2 with_state] in HE1, HE2. rewrite HE1, HE2 in Hobl.
    exact Hobl. }
  assert (Hdec1 : decoder h1 zero (Query r1) = (query, None)) by exact Hdec.
  assert (Hdec2 : decoder h2 zero (Query r2) = (query, None))
    by (rewrite <- HQ; exact Hdec).
  destruct (validate h query) as [e|] eqn:Hval.
  { destruct (serve_validate_error h1 w s1 r1 query e Hdec1 Hval)
      as (t1 & ? & ? & ? & HE1 & ->).
    destruct (serve_validate_error h2 w s2 r2 query e Hdec2 Hval)
      as (t2 & ? & ? & ? & HE2 & ->).
    split; [reflexivity|]. split; [reflexivity|]. intros [Hobl _].
    specialize (Hobl (writer h) w ErrBadRequest StatusBadRequest t1 t2).
    cbn [writer h1 h2 with_state] in HE1, HE2. rewrite HE1, HE2 in Hobl.
    exact Hobl. }
  destruct (window query) as [offset limit] eqn:Hwin.
  destruct (Hacc query offset limit) as [HL HC].
  destruct (List a1 (handle_ctx r1) query offset limit)
    as [b1 [items1 oe1]] eqn:HL1.
  destruct (List a2 (handle_ctx r2) query offset limit)
    as [b2 [items2 oe2]] eqn:HL2.
  cbn [fst snd] in HL, HC. injection HL as <- <-.
  destruct oe1 as [e|].
  { destruct (serve_List_error h1 w s1 r1 query offset limit b1 items1 e
                Hdec1 Hval Hwin HL1) as (t1 & ? & ? & ? & HE1 & ->).
    destruct (serve_List_error h2 w s2 r2 query offset limit b2 items1 e
                Hdec2 Hval Hwin HL2) as (t2 & ? & ? & ? & HE2 & ->).
    split; [reflexivity|]. split; [reflexivity|]. intros [Hobl _].
    specialize (Hobl (writer h) w ErrInternal StatusInternalServerError t1 t2).
    cbn [writer h1 h2 with_state] in HE1, HE2. rewrite HE1, HE2 in Hobl.
    exact Hobl. }
  destruct (Count b1 (handle_ctx r1) query) as [c1 [total1 oe1]] eqn:HC1.
  destruct (Count b2 (handle_ctx r2) query) as [c2 [total2 oe2]] eqn:HC2.
  cbn [snd] in HC. injection HC as <- <-.
  destruct oe1 as [e|].
  { destruct (serve_Count_error h1 w s1 r1 query offset limit b1 items1 c1 total1 e
                Hdec1 Hval Hwin HL1 HC1) as (t1 & ? & ? & ? & HE1 & ->).
    destruct (serve_Count_error h2 w s2 r2 query offset limit b2 items1 c2 total1 e
                Hdec2 Hval Hwin HL2 HC2) as (t2 & ? & ? & ? & HE2 & ->).
    split; [reflexivity|]. split; [reflexivity|]. intros [Hobl _].
    specialize (Hobl (writer h) w ErrInternal StatusInternalServerError t1 t2).
    cbn [writer h1 h2 with_state] in HE1, HE2. rewrite HE1, HE2 in Hobl.
    exact Hobl. }
  destruct (GoInt.quo offset limit) as [page|] eqn:Hquo.
  - destruct (serve_success h1 w s1 r1 query offset limit b1 items1 c1 total1 page
                Hdec1 Hval Hwin HL1 HC1 Hquo)
      as (t1 & ? & ? & ? & ? & ? & HR1 & ->).
    destruct (serve_success h2 w s2 r2 query offset limit b2 items1 c2 total1 page
                Hdec2 Hval Hwin HL2 HC2 Hquo)
      as (t2 & ? & ? & ? & ? & ? & HR2 & ->).
    split; [reflexivity|]. split; [reflexivity|]. intros [_ Hobl].
    specialize (Hobl (writer h) w
                  (ListResult items1 total1 (GoInt.add page 1) limit)
                  StatusOK t1 t2).
    cbn [writer h1 h2 with_state] in HR1, HR2. rewrite HR1, HR2 in Hobl.
    exact Hobl.
  - assert (limit = 0) as ->.
    { unfold GoInt.quo in Hquo.
      destruct (Z.eqb_spec limit 0); [assumption | discriminate]. }
    destruct (serve_divide_by_zero h1 w s1 r1 query offset b1 items1 c1 total1
                Hdec1 Hval Hwin HL1 HC1) as (? & ->).
    destruct (serve_divide_by_zero h2 w s2 r2 query offset b2 items1 c2 total1
                Hdec2 Hval Hwin HL2 HC2) as (? & ->).
    split; [reflexivity|]. split; reflexivity.
Qed.

End DeterminismFacts.

(** ** Accessor errors behind the default writer *)

Section InternalErrorFacts.
Context {T Q : Type} `{!QueryType (T:=T) Q}.
Context {A R : Type}.
Context `{!Listable (T:=T) (Q:=Q) A} `{!HttpResponseWriter (T:=T) R}.

Implicit Types (h : @ListHandler T Q A DefaultResponseWriter) (w : R).
Implicit Types (s : sys) (r : Request) (e : @error T).

(** What [Error(w, ErrInternal, 500)] of the default writer leaves in
    [w], whatever the log. *)
Lemma Error_ErrInternal_rw (d : DefaultResponseWriter) w s :
  fst (DefaultResponseWriter_Error d w ErrInternal StatusInternalServerError s)
  = let w1 := WriteHeader (Header_Set w "Content-Type" "application/json") 500 in
    match json_Encode w1
            (Struct {| Status := 500; Message := "internal server error";
                       Details := Nil |}) with
    | (w2, None) => w2
    | (w2, Some _) => http_Error w2 "internal server error" 500
    end.
Proof.
  unfold DefaultResponseWriter_Error, DefaultResponseWriter_Response.
  cbn. destruct (json_Encode _ _) as [w2 [e|]]; reflexivity.
Qed.

Lemma accessor_error_response h w s r e :
  accessor_error h r = Some e ->
  fst (serve h w s r) = Returned tt /\
  writer_calls (calls (snd (serve h w s r))) = [CallError ErrInternal 500] /\
  rw (snd (serve h w s r))
  = let w1 := WriteHeader (Header_Set w "Content-Type" "application/json") 500 in
    match json_Encode w1
            (Struct {| Status := 500; Message := "internal server error";
                       Details := Nil |}) with
    | (w2, None) => w2
    | (w2, Some _) => http_Error w2 "internal server error" 500
    end.
Proof.
  unfold accessor_error. intros Hacc.
  destruct (decoder h zero (Query r)) as [query [e0|]] eqn:Hdec; [discriminate|].
  destruct (validate h query) as [e0|] eqn:Hval; [discriminate|].
  destruct (window query) as [offset limit] eqn:Hwin.
  destruct (List (querier h) (handle_ctx r) query offset limit)
    as [a [items [e0|]]] eqn:HList.
  - destruct (serve_List_error h w s r query offset limit a items e0
                Hdec Hval Hwin HList) as (s1 & wr & w' & s' & HE & ->).
    cbn [fst snd rw calls]. repeat split.
    transitivity
      (fst (DefaultResponseWriter_Error (writer h) w ErrInternal
              StatusInternalServerError s1));
      [|apply Error_ErrInternal_rw].
    cbn in HE. destruct (DefaultResponseWriter_Error _ _ _ _ _) as [w0 s0].
    injection HE as _ <- _. reflexivity.
  - destruct (Count a (handle_ctx r) query) as [a' [total [e0|]]] eqn:HCount;
      [|discriminate].
    destruct (serve_Count_error h w s r query offset limit a items a' total e0
                Hdec Hval Hwin HList HCount) as (s1 & wr & w' & s' & HE & ->).
    cbn [fst snd rw calls]. repeat split.
    transitivity
      (fst (DefaultResponseWriter_Error (writer h) w ErrInternal
              StatusInternalServerError s1));
      [|apply Error_ErrInternal_rw].
    cbn in HE. destruct (DefaultResponseWriter_Error _ _ _ _ _) as [w0 s0].
    injection HE as _ <- _. reflexivity.
Qed.

(** C7: whenever the accessor fails, in [List] or in [Count], and with
    whatever error, the one call on the response writer is [Error] with
    [ErrInternal] and status 500, and the default writer sends the client
    status 500 and the envelope with the fixed message
    "internal server error" and no details (or, should that write fail,
    the same fixed text in plain).  Two such runs writing to the same
    [w] leave it identical: the accessor's error is not in it. *)
Theorem C7_accessor_error_not_disclosed h1 h2 w s1 s2 r1 r2 e1 e2 :
  accessor_error h1 r1 = Some e1 ->
  accessor_error h2 r2 = Some e2 ->
  let wd1 := snd (serve h1 w s1 r1) in
  let wd2 := snd (serve h2 w s2 r2) in
  writer_calls (calls wd1) = [CallError ErrInternal 500] /\
  writer_calls (calls wd2) = [CallError ErrInternal 500] /\
  (@ErrInternal T) = {| err_Error := "internal server error"; err_Details := None |} /\
  rw wd1 = rw wd2 /\
  rw wd1
  = let w1 := WriteHeader (Header_Set w "Content-Type" "application/json") 500 in
    match json_Encode w1
            (Struct {| Status := 500; Message := "internal server error";
                       Details := Nil |}) with
    | (w2, None) => w2
    | (w2, Some _) => http_Error w2 "internal server error" 500
    end.
Proof.
  intros H1 H2. cbv zeta.
  destruct (accessor_error_response h1 w s1 r1 e1 H1) as (_ & Hc1 & Hw1).
  destruct (accessor_error_response h2 w s2 r2 e2 H2) as (_ & Hc2 & Hw2).
  cbv zeta in Hw1, Hw2.
  repeat split; try assumption.
  rewrite Hw1, Hw2. reflexivity.
Qed.

End InternalErrorFacts.

(** ** Pagination *)

Section PaginationFacts.
Context {T Q : Type} `{!QueryType (T:=T) Q}.
Context {A W R : Type}.
Context `{!Listable (T:=T) (Q:=Q) A} `{!ResponseWriter (T:=T) W R}.

Implicit Types (h : @ListHandler T Q A W) (w : R) (s : sys) (r : Request).
Implicit Types (query : Q) (gp : Q -> PaginatedQuery).

(** Once the query is decoded and valid, the first call is [List] with
    the derived window, and [List] is not called again. *)
Lemma serve_calls_List_once h w s r query offset limit :
  decoder h zero (Query r) = (query, None) ->
  validate h query = None ->
  window query = (offset, limit) ->
  exists rest,
    calls (snd (serve h w s r))
    = CallList (handle_ctx r) query offset limit :: rest /\
    forallb (fun c => negb (is_List_call c)) rest = true.
Proof.
  intros Hdec Hval Hwin.
  destruct (List (querier h) (handle_ctx r) query offset limit)
    as [a [items [e|]]] eqn:HList.
  - destruct (serve_List_error h w s r query offset limit a items e
                Hdec Hval Hwin HList) as (s1 & wr & w' & s' & _ & Hrun).
    rewrite Hrun. eexists. split; reflexivity.
  - destruct (Count a (handle_ctx r) query) as [a' [total [e|]]] eqn:HCount.
    + destruct (serve_Count_error h w s r query offset limit a items a' total e
                  Hdec Hval Hwin HList HCount) as (s1 & wr & w' & s' & _ & Hrun).
      rewrite Hrun. eexists. split; reflexivity.
    + destruct (GoInt.quo offset limit) as [page|] eqn:Hquo.
      * destruct (serve_success h w s r query offset limit a items a' total page
                    Hdec Hval Hwin HList HCount Hquo)
          as (s1 & wr & w' & s' & oe & s2 & _ & Hrun).
        rewrite Hrun. eexists. split; reflexivity.
      * assert (limit = 0) as ->.
        { unfold GoInt.quo in Hquo.
          destruct (Z.eqb_spec limit 0); [assumption | discriminate]. }
        destruct (serve_divide_by_zero h w s r query offset a items a' total
                    Hdec Hval Hwin HList HCount) as (s1 & Hrun).
        rewrite Hrun. eexists. split; reflexivity.
Qed.

(** A query type without [GetPagination] gets the window (0, 0). *)
Lemma window_without_pagination query :
  GetPagination = None -> window query = (0, 0).
Proof. intros Hgp. unfold window. rewrite Hgp. reflexivity. Qed.

(** Then a run whose accessor calls both succeed panics on the echo
    [offset/limit + 1], and nothing reaches the response writer. *)
Lemma Handle_without_pagination_panics h w s r query a items a' total :
  GetPagination = None ->
  decoder h zero (Query r) = (query, None) ->
  validate h query = None ->
  List (querier h) (handle_ctx r) query 0 0 = (a, (items, None)) ->
  Count a (handle_ctx r) query = (a', (total, None)) ->
  fst (serve h w s r) = Panicked "runtime error: integer divide by zero" /\
  calls (snd (serve h w s r))
  = [CallList (handle_ctx r) query 0 0; CallCount (handle_ctx r) query] /\
  rw (snd (serve h w s r)) = w /\
  writer (handler (snd (serve h w s r))) = writer h.
Proof.
  intros Hgp Hdec Hval HList HCount.
  destruct (serve_divide_by_zero h w s r query 0 a items a' total
              Hdec Hval (window_without_pagination query Hgp) HList HCount)
    as (s1 & Hrun).
  rewrite Hrun. repeat split; reflexivity.
Qed.

Lemma window_exact query gp page page_size :
  GetPagination = Some gp ->
  gp query = {| Page := page; PageSize := page_size |} ->
  1 <= page -> 1 <= page_size ->
  (page - 1) * page_size <= GoInt.MaxInt ->
  window query = ((page - 1) * page_size, page_size).
Proof.
  intros Hgp Hq Hp Hs Hfit. unfold window. rewrite Hgp. cbv zeta.
  rewrite Hq. cbn [Page PageSize].
  rewrite GoIntFacts.offset_exact by assumption. reflexivity.
Qed.

(** C2, amended: for a query type with the pagination capability, a
    decoded and valid query with [page >= 1] and [page_size] in
    [1, 100], and a product [(page-1)*page_size] that fits Go's [int],
    [Handle] derives [offset = (page-1)*page_size] and
    [limit = page_size] and calls [List] with exactly these values, once. *)
Theorem C2_offset_limit_passed_to_List h w s r query gp page page_size :
  decoder h zero (Query r) = (query, None) ->
  validate h query = None ->
  GetPagination = Some gp ->
  gp query = {| Page := page; PageSize := page_size |} ->
  1 <= page ->
  1 <= page_size <= 100 ->
  (page - 1) * page_size <= GoInt.MaxInt ->
  window query = ((page - 1) * page_size, page_size) /\
  exists rest,
    calls (snd (serve h w s r))
    = CallList (handle_ctx r) query ((page - 1) * page_size) page_size :: rest /\
    forallb (fun c => negb (is_List_call c)) rest = true.
Proof.
  intros Hdec Hval Hgp Hq Hp Hs Hfit.
  assert (Hwin : window query = ((page - 1) * page_size, page_size))
    by (apply (window_exact query gp); [assumption..| lia |assumption]).
  split; [exact Hwin|].
  exact (serve_calls_List_once h w s r query _ _ Hdec Hval Hwin).
Qed.

(** C10, amended: for a query type with the pagination capability and a
    run in which decoding, validation, [List] and [Count] succeed, if
    [1 <= page <= MaxInt], [page_size >= 1] and [(page-1)*page_size]
    fits Go's [int], the success payload echoes exactly the decoded
    [page] and [page_size]. *)
Theorem C10_page_echo_round_trip h w s r query gp page page_size a items a' total :
  decoder h zero (Query r) = (query, None) ->
  validate h query = None ->
  GetPagination = Some gp ->
  gp query = {| Page := page; PageSize := page_size |} ->
  1 <= page <= GoInt.MaxInt ->
  1 <= page_size ->
  (page - 1) * page_size <= GoInt.MaxInt ->
  List (querier h) (handle_ctx r) query ((page - 1) * page_size) page_size
  = (a, (items, None)) ->
  Count a (handle_ctx r) query = (a', (total, None)) ->
  fst (serve h w s r) = Returned tt /\
  calls (snd (serve h w s r))
  = [CallList (handle_ctx r) query ((page - 1) * page_size) page_size;
     CallCount (handle_ctx r) query;
     CallResponse (ListResult items total page page_size) 200] /\
  pagination_field "page" (ListResult items total page page_size)
  = Some (Int page).
Proof.
  intros Hdec Hval Hgp Hq Hp Hs Hfit HList HCount.
  assert (Hwin : window query = ((page - 1) * page_size, page_size))
    by (apply (window_exact query gp); [assumption..| lia | assumption | assumption]).
  destruct (serve_success h w s r query _ _ a items a' total (page - 1)
              Hdec Hval Hwin HList HCount (GoIntFacts.quo_exact _ _ Hp Hs))
    as (s1 & wr & w' & s' & oe & s2 & _ & Hrun).
  rewrite (GoIntFacts.add_exact _ Hp) in Hrun.
  rewrite Hrun. repeat split; reflexivity.
Qed.

End PaginationFacts.

(** ** The runs of list_test.go *)

(** [TestListHandler_Handle_InvalidQuery]: [/?page=0&page_size=0]. *)
Lemma C3_bad_request_witness :
  let h := test_handler (mock (["item1"%string], None) (1, None)) in
  let r := page_request "0" "0" in
  (snd (decoder h (zero (T:=string)) (Query r)) <> None \/
   validate h (fst (decoder h (zero (T:=string)) (Query r))) <> None) /\
  calls (snd (serve h NewRecorder boot r)) = [CallError ErrBadRequest 400] /\
  ops (rw (snd (serve h NewRecorder boot r)))
  = [OpHeaderSet "Content-Type" "application/json";
     OpWriteHeader 400;
     OpEncode (Struct {| Status := 400; Message := "bad request"; Details := Nil |})].
Proof.
  cbv zeta.
  assert (Hbad :
    snd (decoder (test_handler (mock (["item1"%string], None) (1, None))) (zero (T:=string))
           (Query (page_request "0" "0"))) <> None \/
    validate (test_handler (mock (["item1"%string], None) (1, None)))
      (fst (decoder (test_handler (mock (["item1"%string], None) (1, None))) (zero (T:=string))
              (Query (page_request "0" "0")))) <> None).
  { right. vm_compute. discriminate. }
  split; [exact Hbad|].
  split.
  - exact (proj1 (proj2 (C3_bad_request_skips_accessor _ NewRecorder boot _ Hbad))).
  - vm_compute. reflexivity.
Defined.

(** The other refusals the spec lists: a page size of zero, a page size
    of 101, and a page that is not a number. *)
Example bad_request_page_size_0 :
  calls (snd (serve (test_handler (mock (["item1"%string], None) (1, None)))
                NewRecorder boot (page_request "1" "0")))
  = [CallError ErrBadRequest 400].
Proof. vm_compute. reflexivity. Qed.

Example bad_request_page_size_101 :
  calls (snd (serve (test_handler (mock (["item1"%string], None) (1, None)))
                NewRecorder boot (page_request "1" "101")))
  = [CallError ErrBadRequest 400].
Proof. vm_compute. reflexivity. Qed.

Example bad_request_page_not_a_number :
  calls (snd (serve (test_handler (mock (["item1"%string], None) (1, None)))
                NewRecorder boot (page_request "abc" "10")))
  = [CallError ErrBadRequest 400].
Proof. vm_compute. reflexivity. Qed.

(** [TestListHandler_Handle_QuerierError]: [List] fails on
    [/?page=1&page_size=10]. *)
Lemma C4_List_error_witness :
  let h := test_handler (mock ([], Some assert_AnError) (0, None)) in
  let r := page_request "1" "10" in
  calls (snd (serve h NewRecorder boot r))
  = [CallList (handle_ctx r)
       {| TestQuery_PaginatedQuery := {| Page := 1; PageSize := 10 |};
          TestQuery_Name := "" |} 0 10;
     CallError ErrInternal 500] /\
  Calls (querier (handler (snd (serve h NewRecorder boot r)))) = ["List"%string].
Proof.
  cbv zeta. split.
  - refine (proj1 (proj2 (C4_List_error_stops_before_Count
      (test_handler (mock ([], Some assert_AnError) (0, None)))
      NewRecorder boot (page_request "1" "10")
      {| TestQuery_PaginatedQuery := {| Page := 1; PageSize := 10 |};
         TestQuery_Name := "" |} 0 10
      {| List_Return := ([], Some assert_AnError); Count_Return := (0, None);
         Calls := ["List"%string] |}
      [] assert_AnError _ _ _ _))); vm_compute; reflexivity.
  - vm_compute. reflexivity.
Defined.

(** [List] answers, [Count] fails. *)
Lemma C5_Count_error_witness :
  let h := test_handler (mock (["item1"%string], None) (0, Some assert_AnError)) in
  let r := page_request "1" "10" in
  calls (snd (serve h NewRecorder boot r))
  = [CallList (handle_ctx r)
       {| TestQuery_PaginatedQuery := {| Page := 1; PageSize := 10 |};
          TestQuery_Name := "" |} 0 10;
     CallCount (handle_ctx r)
       {| TestQuery_PaginatedQuery := {| Page := 1; PageSize := 10 |};
          TestQuery_Name := "" |};
     CallError ErrInternal 500] /\
  ops (rw (snd (serve h NewRecorder boot r)))
  = [OpHeaderSet "Content-Type" "application/json";
     OpWriteHeader 500;
     OpEncode (Struct {| Status := 500; Message := "internal server error";
                         Details := Nil |})].
Proof.
  cbv zeta. split.
  - refine (proj1 (proj2 (C5_Count_error_discards_items
      (test_handler (mock (["item1"%string], None) (0, Some assert_AnError)))
      NewRecorder boot (page_request "1" "10")
      {| TestQuery_PaginatedQuery := {| Page := 1; PageSize := 10 |};
         TestQuery_Name := "" |} 0 10
      {| List_Return := (["item1"%string], None);
         Count_Return := (0, Some assert_AnError);
         Calls := ["List"%string] |}
      ["item1"%string]
      {| List_Return := (["item1"%string], None);
         Count_Return := (0, Some assert_AnError);
         Calls := ["List"%string; "Count"%string] |}
      0 assert_AnError _ _ _ _ _))); vm_compute; reflexivity.
  - vm_compute. reflexivity.
Defined.

(** [TestListHandler_Handle_ValidRequest]: [/?page=1&page_size=10]. *)
Lemma C2_offset_limit_witness :
  let h := test_handler (mock (["item1"%string], None) (1, None)) in
  let r := page_request "3" "10" in
  let query := {| TestQuery_PaginatedQuery := {| Page := 3; PageSize := 10 |};
                  TestQuery_Name := "" |} in
  exists rest,
    calls (snd (serve h NewRecorder boot r))
    = CallList (handle_ctx r) query 20 10 :: rest /\
    forallb (fun c => negb (is_List_call c)) rest = true.
Proof.
  cbv zeta.
  refine (proj2 (C2_offset_limit_passed_to_List
    (test_handler (mock (["item1"%string], None) (1, None)))
    NewRecorder boot (page_request "3" "10")
    {| TestQuery_PaginatedQuery := {| Page := 3; PageSize := 10 |};
       TestQuery_Name := "" |}
    TestQuery_GetPagination 3 10 _ _ _ _ _ _ _)).
  - vm_compute. reflexivity.
  - vm_compute. reflexivity.
  - reflexivity.
  - reflexivity.
  - lia.
  - lia.
  - vm_compute. discriminate.
Defined.

(** C2 as stated fails where the product overflows: page
    [2^62 + 1] with page size 4 is valid, [(page-1)*page_size] is [2^64],
    and [List] is called with offset 0. *)
Lemma C2_offset_overflow_counterexample :
  let h := test_handler (mock (["item1"%string], None) (1, None)) in
  let r := page_request "4611686018427387905" "4" in
  let page := 4611686018427387905 in
  let page_size := 4 in
  let query := {| TestQuery_PaginatedQuery := {| Page := page; PageSize := page_size |};
                  TestQuery_Name := "" |} in
  decoder h (zero (T:=string)) (Query r) = (query, None) /\
  validate h query = None /\
  GetPagination (T:=string) = Some TestQuery_GetPagination /\
  1 <= page /\ 1 <= page_size <= 100 /\
  (exists rest,
     calls (snd (serve h NewRecorder boot r))
     = CallList (handle_ctx r) query 0 page_size :: rest) /\
  ~ (exists rest,
       calls (snd (serve h NewRecorder boot r))
       = CallList (handle_ctx r) query ((page - 1) * page_size) page_size :: rest).
Proof.
  cbv zeta.
  split; [vm_compute; reflexivity|].
  split; [vm_compute; reflexivity|].
  split; [reflexivity|].
  split; [lia|].
  split; [lia|].
  split.
  - eexists. vm_compute. reflexivity.
  - intros [rest Hrest]. vm_compute in Hrest. discriminate Hrest.
Qed.

Lemma C10_page_echo_witness :
  let h := test_handler (mock (["item1"%string], None) (1, None)) in
  let r := page_request "3" "10" in
  let query := {| TestQuery_PaginatedQuery := {| Page := 3; PageSize := 10 |};
                  TestQuery_Name := "" |} in
  calls (snd (serve h NewRecorder boot r))
  = [CallList (handle_ctx r) query 20 10;
     CallCount (handle_ctx r) query;
     CallResponse (ListResult ["item1"%string] 1 3 10) 200].
Proof.
  cbv zeta.
  refine (proj1 (proj2 (C10_page_echo_round_trip
    (test_handler (mock (["item1"%string], None) (1, None)))
    NewRecorder boot (page_request "3" "10")
    {| TestQuery_PaginatedQuery := {| Page := 3; PageSize := 10 |};
       TestQuery_Name := "" |}
    TestQuery_GetPagination 3 10
    {| List_Return := (["item1"%string], None); Count_Return := (1, None);
       Calls := ["List"%string] |}
    ["item1"%string]
    {| List_Return := (["item1"%string], None); Count_Return := (1, None);
       Calls := ["List"%string; "Count"%string] |}
    1 _ _ _ _ _ _ _ _ _))).
  - vm_compute. reflexivity.
  - vm_compute. reflexivity.
  - reflexivity.
  - reflexivity.
  - vm_compute. split; discriminate.
  - lia.
  - vm_compute. discriminate.
  - vm_compute. reflexivity.
  - vm_compute. reflexivity.
Defined.

(** C10 as stated fails on the same request: the requested page is
    [2^62 + 1], the offset wraps to 0, and the payload echoes page 1. *)
Lemma C10_page_echo_counterexample :
  let h := test_handler (mock (["item1"%string], None) (1, None)) in
  let r := page_request "4611686018427387905" "4" in
  let page := 4611686018427387905 in
  let page_size := 4 in
  let query := {| TestQuery_PaginatedQuery := {| Page := page; PageSize := page_size |};
                  TestQuery_Name := "" |} in
  decoder h (zero (T:=string)) (Query r) = (query, None) /\
  validate h query = None /\
  1 <= page /\ 1 <= page_size /\
  calls (snd (serve h NewRecorder boot r))
  = [CallList (handle_ctx r) query 0 page_size;
     CallCount (handle_ctx r) query;
     CallResponse (ListResult ["item1"%string] 1 1 page_size) 200] /\
  pagination_field "page" (ListResult ["item1"%string] 1 1 page_size)
  = Some (Int 1) /\
  pagination_field "page" (ListResult ["item1"%string] 1 1 page_size)
  <> Some (Int page).
Proof.
  cbv zeta.
  split; [vm_compute; reflexivity|].
  split; [vm_compute; reflexivity|].
  split; [lia|].
  split; [lia|].
  split; [vm_compute; reflexivity|].
  split; [vm_compute; reflexivity|].
  vm_compute. discriminate.
Qed.

(** C1: the README's [UserQuery] has no [GetPagination] method.  On
    [/?page=1&page_size=10], with [List] and [Count] succeeding, [Handle]
    passes offset 0 and limit 0 to [List], calls [Count], and then panics
    on the division [offset/limit]: no success response is emitted and
    nothing is written to the client. *)
Theorem C1_no_pagination_divides_by_zero :
  let h := user_handler (mock (["item1"%string], None) (1, None)) in
  let r := page_request "1" "10" in
  let query := {| UserQuery_PaginatedQuery := {| Page := 1; PageSize := 10 |};
                  UserQuery_Name := "" |} in
  let out := serve h NewRecorder boot r in
  GetPagination (T:=string) (Q:=UserQuery) = None /\
  decoder h (zero (T:=string)) (Query r) = (query, None) /\
  validate h query = None /\
  fst out = Panicked "runtime error: integer divide by zero" /\
  calls (snd out)
  = [CallList (handle_ctx r) query 0 0; CallCount (handle_ctx r) query] /\
  writer_calls (calls (snd out)) = [] /\
  ops (rw (snd out)) = [].
Proof.
  cbv zeta.
  split; [reflexivity|].
  split; [vm_compute; reflexivity|].
  split; [vm_compute; reflexivity|].
  split; [vm_compute; reflexivity|].
  split; [vm_compute; reflexivity|].
  split; vm_compute; reflexivity.
Qed.

(** C6: on [/?page=1&page_size=10], with [List] returning
    [(["item1"], nil)] and [Count] returning [(1, nil)], the one call on the
    response writer is [Response] with status 200 and the payload
    [{"items":["item1"],"pagination":{"total":1,"page":1,"page_size":10}}],
    which the default writer encodes into the body. *)
Theorem C6_valid_request_payload :
  let h := test_handler (mock (["item1"%string], None) (1, None)) in
  let out := serve h NewRecorder boot (page_request "1" "10") in
  let payload : any string :=
    Map {[ "items" := Slice ["item1"%string];
           "pagination" := Map {[ "total" := Int64 1;
                                  "page" := Int 1;
                                  "page_size" := Int 10 ]} ]} in
  fst out = Returned tt /\
  writer_calls (calls (snd out)) = [CallResponse payload 200] /\
  ops (rw (snd out))
  = [OpHeaderSet "Content-Type" "application/json";
     OpWriteHeader 200;
     OpEncode payload].
Proof.
  cbv zeta.
  split; [vm_compute; reflexivity|].
  split; vm_compute; reflexivity.
Qed.

(** ** The default response writer *)

Section DefaultWriterFacts.
Context {T : Type}.

Implicit Types (rec : @Recorder T) (err : @error T) (s : sys).

(** C9: [Error] of the default writer sets the JSON content type, writes
    the given status and encodes one [ErrorResponse] whose [status] is the
    given status and whose [message] is [err.Error()]; its [details] is
    what [err.Details()] returns when [err] has that method, and is nil
    (left out by [omitempty]) when it has not.  What may follow is only
    the plain-text fallback of a failed write. *)
Theorem C9_Error_envelope rec err status s :
  exists res tail,
    ops (fst (DefaultResponseWriter_Error mkDefaultResponseWriter rec err status s))
    = ops rec
      ++ [OpHeaderSet "Content-Type" "application/json";
          OpWriteHeader status;
          OpEncode (Struct res)]
      ++ tail /\
    Status res = status /\
    Message res = err_Error err /\
    (forall d, err_Details err = Some d -> Details res = d) /\
    (err_Details err = None -> Details res = Nil) /\
    (Details res <> Nil -> exists d, err_Details err = Some d) /\
    (tail = [] \/ tail = [OpHttpError "internal server error" 500]).
Proof.
  unfold DefaultResponseWriter_Error, DefaultResponseWriter_Response.
  cbn [Header_Set WriteHeader json_Encode http_Error Recorder_HttpResponseWriter].
  destruct (err_Details err) as [d|] eqn:Hd.
  - exists {| Status := status; Message := err_Error err; Details := d |}.
    cbn [Status Message Details].
    destruct (encode_err _ _) as [e|]; eexists; cbn [fst ops record_op encode_err];
      rewrite <- ?app_assoc; cbn [app];
      (split; [reflexivity|]);
      (repeat split; try congruence; eauto).
  - exists {| Status := status; Message := err_Error err; Details := Nil |}.
    cbn [Status Message Details].
    destruct (encode_err _ _) as [e|]; eexists; cbn [fst ops record_op encode_err];
      rewrite <- ?app_assoc; cbn [app];
      (split; [reflexivity|]);
      (repeat split; try congruence; eauto).
Qed.

End DefaultWriterFacts.

(** The default writer does not look at the log. *)
Lemma DefaultResponseWriter_log_oblivious {T R : Type}
    `{!HttpResponseWriter (T:=T) R} :
  log_oblivious (T:=T) (W:=DefaultResponseWriter) (R:=R).
Proof.
  split.
  - intros wr w err status s s'. cbn.
    unfold DefaultResponseWriter_Error.
    destruct (DefaultResponseWriter_Response _ _ _ _) as [w' [e|]]; reflexivity.
  - intros wr w v status s s'. cbn.
    destruct (DefaultResponseWriter_Response _ _ _ _) as [w' oe]. reflexivity.
Qed.

(** ** Witnesses on the test handler *)

(** One run fails in [List], the other in [Count], with different errors. *)
Lemma C7_accessor_error_witness :
  let h1 := test_handler (mock ([], Some (errors_New "pq: connection refused")) (0, None)) in
  let h2 := test_handler (mock (["item1"%string], None) (0, Some assert_AnError)) in
  let r := page_request "1" "10" in
  ops (rw (snd (serve h1 NewRecorder boot r)))
  = ops (rw (snd (serve h2 NewRecorder boot r))) /\
  ops (rw (snd (serve h1 NewRecorder boot r)))
  = [OpHeaderSet "Content-Type" "application/json";
     OpWriteHeader 500;
     OpEncode (Struct {| Status := 500; Message := "internal server error";
                         Details := Nil |})].
Proof.
  cbv zeta.
  pose proof (C7_accessor_error_not_disclosed
    (test_handler (mock ([], Some (errors_New "pq: connection refused")) (0, None)))
    (test_handler (mock (["item1"%string], None) (0, Some assert_AnError)))
    NewRecorder boot boot (page_request "1" "10") (page_request "1" "10")
    (errors_New "pq: connection refused") assert_AnError) as H.
  cbv zeta in H.
  assert (H1 : accessor_error
    (test_handler (mock ([], Some (errors_New "pq: connection refused")) (0, None)))
    (page_request "1" "10") = Some (errors_New "pq: connection refused"))
    by (vm_compute; reflexivity).
  assert (H2 : accessor_error
    (test_handler (mock (["item1"%string], None) (0, Some assert_AnError)))
    (page_request "1" "10") = Some assert_AnError)
    by (vm_compute; reflexivity).
  destruct (H H1 H2) as (_ & _ & _ & Hsame & Hsent).
  split.
  - rewrite Hsame. reflexivity.
  - rewrite Hsent. reflexivity.
Defined.

(** The same request served twice: the second time the mock has already
    been called, the clock has moved and the client is another one. *)
Lemma C8_Handle_deterministic_witness :
  let h := test_handler (mock (["item1"%string], None) (1, None)) in
  let a1 := mock (["item1"%string], None) (1, None) in
  let a2 := {| List_Return := (["item1"%string], None); Count_Return := (1, None);
               Calls := ["List"%string; "Count"%string] |} in
  let r1 := page_request "1" "10" in
  let r2 := {| Method := "GET"; Path := "/"; RemoteAddr := "198.51.100.7:80";
               Query := Query r1; Ctx := Background |} in
  let later := {| log := []; clock := fun n => 5 + Z.of_nat n; reads := 7 |} in
  let out1 := serve (with_state h a1 (writer h)) NewRecorder boot r1 in
  let out2 := serve (with_state h a2 (writer h)) NewRecorder later r2 in
  fst out1 = fst out2 /\
  writer_calls (calls (snd out1)) = writer_calls (calls (snd out2)) /\
  rw (snd out1) = rw (snd out2).
Proof.
  cbv zeta.
  pose proof (C8_Handle_deterministic
    (test_handler (mock (["item1"%string], None) (1, None)))
    (mock (["item1"%string], None) (1, None))
    {| List_Return := (["item1"%string], None); Count_Return := (1, None);
       Calls := ["List"%string; "Count"%string] |}
    NewRecorder boot
    {| log := []; clock := fun n => 5 + Z.of_nat n; reads := 7 |}
    (page_request "1" "10")
    {| Method := "GET"; Path := "/"; RemoteAddr := "198.51.100.7:80";
       Query := Query (page_request "1" "10"); Ctx := Background |}
    eq_refl) as H.
  cbv zeta in H.
  destruct H as (Hout & Hcalls & Hrw).
  - intros query offset limit. split; reflexivity.
  - split; [exact Hout|]. split; [exact Hcalls|].
    apply Hrw. apply DefaultResponseWriter_log_oblivious.
Defined.

(** * Further properties of the package *)

(** ** Every run of [Handle] *)

(** The six ways a run can go, each with the equation of its stage. *)
Ltac serve_cases h w s r :=
  destruct (decoder h zero (Query r)) as [query [e|]] eqn:Hdec;
  [ destruct (serve_decode_error h w s r query e Hdec)
      as (s1 & wr & w' & s' & HE & Hrun)
  | destruct (validate h query) as [e|] eqn:Hval;
    [ destruct (serve_validate_error h w s r query e Hdec Hval)
        as (s1 & wr & w' & s' & HE & Hrun)
    | destruct (window query) as [offset limit] eqn:Hwin;
      destruct (List (querier h) (handle_ctx r) query offset limit)
        as [a [items [e|]]] eqn:HList;
      [ destruct (serve_List_error h w s r query offset limit a items e
                    Hdec Hval Hwin HList)
          as (s1 & wr & w' & s' & HE & Hrun)
      | destruct (Count a (handle_ctx r) query) as [a' [total [e|]]] eqn:HCount;
        [ destruct (serve_Count_error h w s r query offset limit a items a' total e
                      Hdec Hval Hwin HList HCount)
            as (s1 & wr & w' & s' & HE & Hrun)
        | destruct (GoInt.quo offset limit) as [page|] eqn:Hquo;
          [ destruct (serve_success h w s r query offset limit a items a' total page
                        Hdec Hval Hwin HList HCount Hquo)
              as (s1 & wr & w' & s' & oe & s2 & HR & Hrun)
          | assert (Hlimit : limit = 0)
              by (unfold GoInt.quo in Hquo;
                  destruct (Z.eqb_spec limit 0); [assumption | discriminate]);
            subst limit;
            destruct (serve_divide_by_zero h w s r query offset a items a' total
                        Hdec Hval Hwin HList HCount)
              as (s1 & Hrun) ] ] ] ] ].

Section EveryRun.
Context {T Q : Type} `{!QueryType (T:=T) Q}.
Context {A W R : Type}.
Context `{!Listable (T:=T) (Q:=Q) A} `{!ResponseWriter (T:=T) W R}.

Implicit Types (h : @ListHandler T Q A W) (w : R) (s : sys) (r : Request).


(** X2: the accessor is called only with a query that decoded and passed
    validation, always under the request's context with the 30 second
    timeout: [List] first, once, with the derived window; [Count] at most
    once, after a [List], with the same query and context. *)
Theorem Handle_accessor_calls h w s r :
  let cs := List.filter is_accessor_call (calls (snd (serve h w s r))) in
  cs = [] \/
  exists query offset limit,
    decoder h zero (Query r) = (query, None) /\
    validate h query = None /\
    window query = (offset, limit) /\
    (cs = [CallList (WithTimeout (Ctx r) (30 * Second)) query offset limit] \/
     cs = [CallList (WithTimeout (Ctx r) (30 * Second)) query offset limit;
           CallCount (WithTimeout (Ctx r) (30 * Second)) query]).
Proof.
  cbv zeta. serve_cases h w s r; rewrite Hrun; cbn [fst snd calls];
    try (left; reflexivity);
    right; exists query, offset; eexists;
    (split; [reflexivity|]); (split; [exact Hval|]); (split; [exact Hwin|]).
  - left. reflexivity.
  - right. reflexivity.
  - right. reflexivity.
  - right. reflexivity.
Qed.


End EveryRun.

(** ** The success path *)

Section SuccessPath.
Context {T Q : Type} `{!QueryType (T:=T) Q}.
Context {A W R : Type}.
Context `{!Listable (T:=T) (Q:=Q) A} `{!ResponseWriter (T:=T) W R}.

Implicit Types (h : @ListHandler T Q A W) (w : R) (s : sys) (r : Request).

(** X4: when the query decodes and is valid, [List] and [Count] succeed
    and the limit is not zero, [Handle] calls [Response] once with status
    200; the payload carries the items [List] returned, the total [Count]
    returned, the limit as page size and [offset/limit + 1] as page.
    Whatever [Response] returns, an error included, [Handle] returns and
    makes no [Error] call. *)
Theorem Handle_success_single_Response
    h w s r query offset limit a items a' total page :
  decoder h zero (Query r) = (query, None) ->
  validate h query = None ->
  window query = (offset, limit) ->
  List (querier h) (handle_ctx r) query offset limit = (a, (items, None)) ->
  Count a (handle_ctx r) query = (a', (total, None)) ->
  GoInt.quo offset limit = Some page ->
  let out := serve h w s r in
  let payload := ListResult items total (GoInt.add page 1) limit in
  fst out = Returned tt /\
  calls (snd out)
  = [CallList (handle_ctx r) query offset limit;
     CallCount (handle_ctx r) query;
     CallResponse payload 200] /\
  (forall err status, CallError err status ∉ calls (snd out)) /\
  querier (handler (snd out)) = a' /\
  exists s1,
    (writer (handler (snd out)), rw (snd out))
    = fst (fst (Response (writer h) w payload 200 s1)).
Proof.
  intros Hdec Hval Hwin HList HCount Hquo.
  destruct (serve_success h w s r query offset limit a items a' total page
              Hdec Hval Hwin HList HCount Hquo)
    as (s1 & wr & w' & s' & oe & s2 & HR & Hrun).
  cbv zeta. rewrite Hrun. cbn [fst snd calls handler rw querier writer with_state].
  split; [reflexivity|]. split; [reflexivity|]. split; [|split; [reflexivity|]].
  - intros err status Hin.
    repeat (apply elem_of_cons in Hin as [Hin|Hin]; [discriminate|]).
    by apply elem_of_nil in Hin.
  - exists s1. unfold StatusOK in HR. rewrite HR. reflexivity.
Qed.

End SuccessPath.

(** A writer whose every encode fails, as when the client has gone. *)
Lemma Handle_success_single_Response_witness :
  let gone : @Recorder string :=
    {| ops := []; encode_err := fun _ => Some (errors_New "write: broken pipe") |} in
  let h := test_handler (mock (["item1"%string; "item2"%string], None) (12, None)) in
  let r := page_request "2" "2" in
  let out := serve h gone boot r in
  fst out = Returned tt /\
  writer_calls (calls (snd out))
  = [CallResponse (ListResult ["item1"%string; "item2"%string] 12 2 2) 200] /\
  ops (rw (snd out))
  = [OpHeaderSet "Content-Type" "application/json";
     OpWriteHeader 200;
     OpEncode (ListResult ["item1"%string; "item2"%string] 12 2 2)].
Proof.
  cbv zeta.
  pose proof (Handle_success_single_Response
    (test_handler (mock (["item1"%string; "item2"%string], None) (12, None)))
    {| ops := []; encode_err := fun _ => Some (errors_New "write: broken pipe") |}
    boot (page_request "2" "2")
    {| TestQuery_PaginatedQuery := {| Page := 2; PageSize := 2 |};
       TestQuery_Name := "" |} 2 2
    {| List_Return := (["item1"%string; "item2"%string], None);
       Count_Return := (12, None); Calls := ["List"%string] |}
    ["item1"%string; "item2"%string]
    {| List_Return := (["item1"%string; "item2"%string], None);
       Count_Return := (12, None); Calls := ["List"%string; "Count"%string] |}
    12 1) as H.
  cbv zeta in H.
  destruct H as (Hout & Hcalls & _); try (vm_compute; reflexivity).
  split; [exact Hout|]. split.
  - rewrite Hcalls. vm_compute. reflexivity.
  - vm_compute. reflexivity.
Defined.

(** ** [Handle] behind the default writer *)

Section DefaultWriterRuns.
Context {T Q : Type} `{!QueryType (T:=T) Q}.
Context {A R : Type}.
Context `{!Listable (T:=T) (Q:=Q) A} `{!HttpResponseWriter (T:=T) R}.

Implicit Types (h : @ListHandler T Q A DefaultResponseWriter) (w : R).
Implicit Types (s : sys) (r : Request) (e : @error T).

(** What [Error(w, err, status)] leaves in [w] for an error without
    details. *)
Lemma Error_plain_rw (d : DefaultResponseWriter) w text status s :
  fst (DefaultResponseWriter_Error d w (errors_New text) status s)
  = let w1 := WriteHeader (Header_Set w "Content-Type" "application/json") status in
    match json_Encode w1
            (Struct {| Status := status; Message := text; Details := Nil |}) with
    | (w2, None) => w2
    | (w2, Some _) => http_Error w2 "internal server error" 500
    end.
Proof.
  unfold DefaultResponseWriter_Error, DefaultResponseWriter_Response.
  cbn. destruct (json_Encode _ _) as [w2 [e|]]; reflexivity.
Qed.

(** X5: on the success path the default writer sets the JSON content
    type, writes status 200 and encodes the payload once.  If that encode
    fails, nothing more is written: there is no plain-text fallback as
    there is for error responses. *)
Theorem Handle_success_body
    h w s r query offset limit a items a' total page :
  decoder h zero (Query r) = (query, None) ->
  validate h query = None ->
  window query = (offset, limit) ->
  List (querier h) (handle_ctx r) query offset limit = (a, (items, None)) ->
  Count a (handle_ctx r) query = (a', (total, None)) ->
  GoInt.quo offset limit = Some page ->
  rw (snd (serve h w s r))
  = fst (json_Encode
           (WriteHeader (Header_Set w "Content-Type" "application/json") 200)
           (ListResult items total (GoInt.add page 1) limit)).
Proof.
  intros Hdec Hval Hwin HList HCount Hquo.
  destruct (serve_success h w s r query offset limit a items a' total page
              Hdec Hval Hwin HList HCount Hquo)
    as (s1 & wr & w' & s' & oe & s2 & HR & Hrun).
  rewrite Hrun. cbn [snd rw].
  cbn in HR. unfold DefaultResponseWriter_Response, ListResult in HR.
  unfold ListResult, StatusOK in *.
  destruct (json_Encode _ _) as [w2 oe2].
  injection HR as _ <- _ _. reflexivity.
Qed.

(** X6: a request refused at decoding or at validation gets, from the
    default writer, status 400 and the envelope with the fixed message
    "bad request" and no details; the text of the decode or validation
    error is not in it.  Should that write fail, the fallback is the plain
    text "internal server error" with code 500. *)
Theorem Handle_bad_request_body h w s r :
  snd (decoder h zero (Query r)) <> None \/
  validate h (fst (decoder h zero (Query r))) <> None ->
  rw (snd (serve h w s r))
  = let w1 := WriteHeader (Header_Set w "Content-Type" "application/json") 400 in
    match json_Encode w1
            (Struct {| Status := 400; Message := "bad request"; Details := Nil |}) with
    | (w2, None) => w2
    | (w2, Some _) => http_Error w2 "internal server error" 500
    end.
Proof.
  intros Hbad.
  assert (Hrw : forall s1 wr w' s',
            Error (writer h) w ErrBadRequest StatusBadRequest s1 = (wr, w', s') ->
            w' = fst (DefaultResponseWriter_Error (writer h) w
                        (errors_New "bad request") 400 s1)).
  { intros s1 wr w' s' HE. cbn in HE.
    unfold ErrBadRequest, StatusBadRequest in HE.
    destruct (DefaultResponseWriter_Error _ _ _ _ _) as [w0 s0].
    injection HE as _ <- _. reflexivity. }
  destruct (decoder h zero (Query r)) as [query [e|]] eqn:Hdec.
  - destruct (serve_decode_error h w s r query e Hdec)
      as (s1 & wr & w' & s' & HE & ->).
    cbn [snd rw]. rewrite (Hrw _ _ _ _ HE). apply Error_plain_rw.
  - cbn in Hbad. destruct (validate h query) as [e|] eqn:Hval.
    + destruct (serve_validate_error h w s r query e Hdec Hval)
        as (s1 & wr & w' & s' & HE & ->).
      cbn [snd rw]. rewrite (Hrw _ _ _ _ HE). apply Error_plain_rw.
    + destruct Hbad as [Hbad|Hbad]; contradiction.
Qed.

End DefaultWriterRuns.

(** ** What goes to the log *)

Section LogFacts.
Context {T Q : Type} `{!QueryType (T:=T) Q}.
Context {A R : Type}.
Context `{!Listable (T:=T) (Q:=Q) A} `{!HttpResponseWriter (T:=T) R}.

Implicit Types (h : @ListHandler T Q A DefaultResponseWriter) (w : R).
Implicit Types (s : sys) (r : Request) (e : @error T).

(** The default writer's [Error] only adds to the log. *)
Lemma Error_log_grows (d : DefaultResponseWriter) w err status s :
  exists more,
    log (snd (DefaultResponseWriter_Error d w err status s)) = log s ++ more.
Proof.
  unfold DefaultResponseWriter_Error.
  destruct (DefaultResponseWriter_Response _ _ _ _) as [w' [e|]]; cbn.
  - eexists. reflexivity.
  - exists []. symmetry. apply app_nil_r.
Qed.

(** X7: the error the accessor returned, from [List] or from [Count],
    is written to the log at error level with the error attached, after
    the records already there, which are kept. *)
Theorem Handle_logs_accessor_error h w s r e :
  accessor_error h r = Some e ->
  exists msg before after,
    (msg = "unable to list items"%string \/ msg = "unable to count items"%string) /\
    log (env (snd (serve h w s r)))
    = log s ++ before
      ++ [mkRecord LevelError msg [("error"%string, Attr error e)]] ++ after.
Proof.
  unfold accessor_error. intros Hacc.
  destruct (decoder h zero (Query r)) as [query [e0|]] eqn:Hdec; [discriminate|].
  destruct (validate h query) as [e0|] eqn:Hval; [discriminate|].
  destruct (window query) as [offset limit] eqn:Hwin.
  unfold window in Hwin. cbv zeta in Hwin. unfold handle_ctx in Hacc.
  destruct (List (querier h) (WithTimeout (Ctx r) (30 * Second)) query offset limit)
    as [a [items [e0|]]] eqn:HList.
  - injection Hacc as ->.
    run_Handle. rewrite Hdec, Hval, Hwin. step_Handle. rewrite HList. step_Handle.
    cbn [Error DefaultResponseWriter_ResponseWriter].
    match goal with
    | |- context [DefaultResponseWriter_Error ?d ?w0 ?err ?st ?s0] =>
        destruct (Error_log_grows d w0 err st s0) as [more Hmore];
        destruct (DefaultResponseWriter_Error d w0 err st s0) as [w1 s1]
    end.
    cbn [snd env] in *. rewrite Hmore. cbn [log slog].
    exists "unable to list items"%string.
    exists [mkRecord LevelDebug "list.start"
              [("method"%string, Attr string (Method r));
               ("path"%string, Attr string (Path r));
               ("remote_add"%string, Attr string (RemoteAddr r))]].
    exists (mkRecord LevelDebug "listing"
              [("query"%string, Attr Q query); ("offset"%string, Attr Z offset);
               ("limit"%string, Attr Z limit)] :: more).
    split; [left; reflexivity|].
    rewrite <- !app_assoc. reflexivity.
  - destruct (Count a (WithTimeout (Ctx r) (30 * Second)) query)
      as [a' [total [e0|]]] eqn:HCount; [|discriminate].
    cbn [snd] in Hacc. injection Hacc as ->.
    run_Handle. rewrite Hdec, Hval, Hwin. step_Handle. rewrite HList. step_Handle.
    rewrite HCount. step_Handle.
    cbn [Error DefaultResponseWriter_ResponseWriter].
    match goal with
    | |- context [DefaultResponseWriter_Error ?d ?w0 ?err ?st ?s0] =>
        destruct (Error_log_grows d w0 err st s0) as [more Hmore];
        destruct (DefaultResponseWriter_Error d w0 err st s0) as [w1 s1]
    end.
    cbn [snd env] in *. rewrite Hmore. cbn [log slog].
    exists "unable to count items"%string.
    exists [mkRecord LevelDebug "list.start"
              [("method"%string, Attr string (Method r));
               ("path"%string, Attr string (Path r));
               ("remote_add"%string, Attr string (RemoteAddr r))]].
    exists (mkRecord LevelDebug "counting" [("query"%string, Attr Q query)] :: more).
    split; [right; reflexivity|].
    rewrite <- !app_assoc. reflexivity.
Qed.

End LogFacts.

(** ** The fallback of the default writer's [Error] *)

Section FallbackFacts.
Context {T : Type}.

Implicit Types (rec : @Recorder T) (err : @error T) (s : sys).

(** X8: [Error] writes the given status and the envelope first.  The
    plain-text fallback, always "internal server error" with code 500,
    follows exactly when the encode of the envelope fails, and exactly
    then one error-level record with the status and the encode error is
    logged; otherwise the log is left alone. *)
Theorem Error_fallback_iff_encode_fails rec err status s :
  let res := {| Status := status; Message := err_Error err;
                Details := default Nil (err_Details err) |} in
  let out := DefaultResponseWriter_Error mkDefaultResponseWriter rec err status s in
  match encode_err rec (Struct res) with
  | None =>
      ops (fst out)
      = ops rec ++ [OpHeaderSet "Content-Type" "application/json";
                    OpWriteHeader status;
                    OpEncode (Struct res)] /\
      snd out = s
  | Some e =>
      ops (fst out)
      = ops rec ++ [OpHeaderSet "Content-Type" "application/json";
                    OpWriteHeader status;
                    OpEncode (Struct res);
                    OpHttpError "internal server error" 500] /\
      snd out
      = slog LevelError "unable to write error response"
          [("status"%string, Attr Z status); ("error"%string, Attr error e)] s
  end.
Proof.
  cbv zeta. unfold DefaultResponseWriter_Error, DefaultResponseWriter_Response.
  cbn [Header_Set WriteHeader json_Encode http_Error Recorder_HttpResponseWriter].
  destruct (err_Details err) as [d|]; cbn [default Status Message Details];
    cbn [record_op encode_err ops];
    destruct (encode_err rec _) as [e|]; cbn [fst snd ops record_op];
    rewrite <- ?app_assoc; split; reflexivity.
Qed.

End FallbackFacts.

(** ** The pagination window *)

Module GoIntWrap.
Import GoInt.

(** [wrap] forgets multiples of [2^bits]. *)
Lemma wrap_add_multiple x k : wrap (x + k * 2 ^ bits) = wrap x.
Proof.
  unfold wrap. replace (x + k * 2 ^ bits - MinInt) with (x - MinInt + k * 2 ^ bits) by lia.
  rewrite Z_mod_plus_full. reflexivity.
Qed.

Lemma wrap_spec x : exists k, wrap x = x + k * 2 ^ bits.
Proof.
  unfold wrap. exists (- ((x - MinInt) / 2 ^ bits)).
  pose proof (Z.div_mod (x - MinInt) (2 ^ bits)) as Hdm.
  rewrite GoIntFacts.modulus_eq in *. lia.
Qed.

(** Multiplying a wrapped factor wraps to the same product. *)
Lemma mul_wrap_l a b : wrap (wrap a * b) = wrap (a * b).
Proof.
  destruct (wrap_spec a) as [k ->].
  replace ((a + k * 2 ^ bits) * b) with (a * b + (k * b) * 2 ^ bits) by lia.
  apply wrap_add_multiple.
Qed.

End GoIntWrap.

Section WindowFacts.
Context {T Q : Type} `{!QueryType (T:=T) Q}.

Implicit Types (query : Q) (gp : Q -> PaginatedQuery).

(** X9: for every page and page size the capability yields, valid or
    not, the derived limit is the page size and the derived offset is
    [(page-1)*page_size] reduced into the range of [int] by two's
    complement wrap-around; so the offset is always a Go [int], and differs
    from the product by a multiple of [2^64]. *)
Theorem window_wraps query gp page page_size :
  GetPagination = Some gp ->
  gp query = {| Page := page; PageSize := page_size |} ->
  window query = (GoInt.wrap ((page - 1) * page_size), page_size) /\
  GoInt.in_range (fst (window query)) /\
  exists k, fst (window query) = (page - 1) * page_size + k * 2 ^ 64.
Proof.
  intros Hgp Hq.
  assert (Hwin : window query = (GoInt.wrap ((page - 1) * page_size), page_size)).
  { unfold window. rewrite Hgp. cbv zeta. rewrite Hq. cbn [Page PageSize].
    unfold GoInt.mul, GoInt.sub. rewrite GoIntWrap.mul_wrap_l. reflexivity. }
  rewrite Hwin. cbn [fst]. split; [reflexivity|]. split.
  - apply GoIntFacts.wrap_in_range.
  - apply GoIntWrap.wrap_spec.
Qed.

(** X10: without overflow the windows of consecutive pages tile the result
    set: page 1 starts at offset 0, offsets are never negative, and the
    window of page [page + 1] starts where the window of [page] ends. *)
Theorem window_tiles q1 q2 gp page page_size :
  GetPagination = Some gp ->
  gp q1 = {| Page := page; PageSize := page_size |} ->
  gp q2 = {| Page := page + 1; PageSize := page_size |} ->
  1 <= page ->
  1 <= page_size ->
  page * page_size <= GoInt.MaxInt ->
  0 <= fst (window q1) /\
  (page = 1 -> fst (window q1) = 0) /\
  fst (window q2) = fst (window q1) + snd (window q1) /\
  snd (window q2) = snd (window q1).
Proof.
  intros Hgp Hq1 Hq2 Hp Hs Hfit.
  rewrite (window_exact q1 gp page page_size Hgp Hq1 Hp Hs) by nia.
  rewrite (window_exact q2 gp (page + 1) page_size Hgp Hq2) by (try lia; nia).
  cbn [fst snd]. split; [nia|]. split; [intros ->; lia|]. split; [lia | reflexivity].
Qed.

End WindowFacts.

(** ** Validation and the division *)

(** What the tags of [PaginatedQuery] let through. *)
Lemma validate_PaginatedQuery_inv {T : Type} (p : PaginatedQuery) :
  validate_PaginatedQuery (T:=T) p = None ->
  1 <= Page p /\ 1 <= PageSize p <= 100.
Proof.
  unfold validate_PaginatedQuery, Page_validate, PageSize_validate.
  cbn [forallb holds].
  destruct (Page p =? 0) eqn:H0; [discriminate|].
  destruct (1 <=? Page p) eqn:H1; [|discriminate].
  destruct (PageSize p =? 0) eqn:H2; [discriminate|].
  destruct (1 <=? PageSize p) eqn:H3; [|discriminate].
  destruct (PageSize p <=? 100) eqn:H4; [|discriminate].
  intros _. lia.
Qed.

(** X11: the tags [required,min=1] on [Page] and [required,min=1,max=100]
    on [PageSize] accept a [PaginatedQuery] exactly when [Page >= 1] and
    [1 <= PageSize <= 100]; [required] adds nothing to [min=1]. *)
Theorem PaginatedQuery_valid_iff {T : Type} (p : PaginatedQuery) :
  validate_PaginatedQuery (T:=T) p = None <->
  1 <= Page p /\ 1 <= PageSize p <= 100.
Proof.
  split; [apply validate_PaginatedQuery_inv|].
  intros (Hp & Hs1 & Hs2).
  unfold validate_PaginatedQuery, Page_validate, PageSize_validate.
  cbn [forallb holds].
  replace (Page p =? 0) with false by (symmetry; apply Z.eqb_neq; lia).
  replace (1 <=? Page p) with true by (symmetry; apply Z.leb_le; lia).
  replace (PageSize p =? 0) with false by (symmetry; apply Z.eqb_neq; lia).
  replace (1 <=? PageSize p) with true by (symmetry; apply Z.leb_le; lia).
  replace (PageSize p <=? 100) with true by (symmetry; apply Z.leb_le; lia).
  reflexivity.
Qed.

Section GuardedDivision.
Context {T Q : Type} `{!QueryType (T:=T) Q}.
Context {A W R : Type}.
Context `{!Listable (T:=T) (Q:=Q) A} `{!ResponseWriter (T:=T) W R}.

Implicit Types (h : @ListHandler T Q A W) (w : R) (s : sys) (r : Request).


End GuardedDivision.


(** ** What lets each stage run *)

#[local] Set Warnings "-clear-no-such-hyp".

Section Gates.
Context {T Q : Type} `{!QueryType (T:=T) Q}.
Context {A W R : Type}.
Context `{!Listable (T:=T) (Q:=Q) A} `{!ResponseWriter (T:=T) W R}.

Implicit Types (h : @ListHandler T Q A W) (w : R) (s : sys) (r : Request).

(** X13: [List] is called exactly when the query decodes and passes
    validation; [Count] exactly when, moreover, [List] returned no error;
    [Response] exactly when, moreover, [Count] returned no error and the
    limit is not zero. *)
Theorem Handle_pipeline_gates h w s r :
  let cs := calls (snd (serve h w s r)) in
  ((exists ctx q o l, CallList ctx q o l ∈ cs) <->
   (exists query,
      decoder h zero (Query r) = (query, None) /\ validate h query = None)) /\
  ((exists ctx q, CallCount ctx q ∈ cs) <->
   (exists query a items,
      decoder h zero (Query r) = (query, None) /\ validate h query = None /\
      List (querier h) (handle_ctx r) query
        (fst (window query)) (snd (window query)) = (a, (items, None)))) /\
  ((exists v status, CallResponse v status ∈ cs) <->
   (exists query a items a' total,
      decoder h zero (Query r) = (query, None) /\ validate h query = None /\
      List (querier h) (handle_ctx r) query
        (fst (window query)) (snd (window query)) = (a, (items, None)) /\
      Count a (handle_ctx r) query = (a', (total, None)) /\
      snd (window query) <> 0)).
Proof.
  cbv zeta.
  serve_cases h w s r; rewrite Hrun; cbn [snd calls];
    repeat setoid_rewrite elem_of_cons; repeat setoid_rewrite elem_of_nil;
    try rewrite Hwin; cbn [fst snd].
  - (* decoding failed *)
    split; [|split]; split; intros Hx; naive_solver.
  - (* validation failed *)
    split; [|split]; split; intros Hx; naive_solver.
  - (* List failed *)
    split; [|split]; split; intros Hx.
    + exists query. split; [reflexivity | exact Hval].
    + eexists _, _, _, _. left. reflexivity.
    + naive_solver.
    + destruct Hx as (q & a0 & i0 & Hq & _ & HL).
      injection Hq as <-. rewrite Hwin in HL. cbn [fst snd] in HL.
      rewrite HList in HL. discriminate.
    + naive_solver.
    + destruct Hx as (q & a0 & i0 & a1 & t1 & Hq & _ & HL & _).
      injection Hq as <-. rewrite Hwin in HL. cbn [fst snd] in HL.
      rewrite HList in HL. discriminate.
  - (* Count failed *)
    split; [|split]; split; intros Hx.
    + exists query. split; [reflexivity | exact Hval].
    + eexists _, _, _, _. left. reflexivity.
    + exists query, a, items. rewrite Hwin. cbn [fst snd]. repeat split; assumption.
    + eexists _, _. right. left. reflexivity.
    + naive_solver.
    + destruct Hx as (q & a0 & i0 & a1 & t1 & Hq & _ & HL & HC & _).
      injection Hq as <-. rewrite Hwin in HL. cbn [fst snd] in HL.
      rewrite HList in HL. injection HL as <- <-.
      rewrite HCount in HC. discriminate.
  - (* success *)
    assert (limit <> 0) as Hlimit.
    { intros ->. unfold GoInt.quo in Hquo. discriminate. }
    split; [|split]; split; intros Hx.
    + exists query. split; [reflexivity | exact Hval].
    + eexists _, _, _, _. left. reflexivity.
    + exists query, a, items. rewrite Hwin. cbn [fst snd]. repeat split; assumption.
    + eexists _, _. right. left. reflexivity.
    + exists query, a, items, a', total. rewrite Hwin. cbn [fst snd].
      repeat split; assumption.
    + eexists _, _. right. right. left. reflexivity.
  - (* the limit is zero *)
    split; [|split]; split; intros Hx.
    + exists query. split; [reflexivity | exact Hval].
    + eexists _, _, _, _. left. reflexivity.
    + exists query, a, items. rewrite Hwin. cbn [fst snd]. repeat split; assumption.
    + eexists _, _. right. left. reflexivity.
    + naive_solver.
    + destruct Hx as (q & a0 & i0 & a1 & t1 & Hq & _ & _ & _ & Hnz).
      injection Hq as <-. rewrite Hwin in Hnz. cbn [snd] in Hnz. contradiction.
Qed.

End Gates.

(** ** What of the request matters *)

Section RequestFields.
Context {T Q : Type} `{!QueryType (T:=T) Q}.
Context {A W R : Type}.
Context `{!Listable (T:=T) (Q:=Q) A} `{!ResponseWriter (T:=T) W R}.

Implicit Types (h : @ListHandler T Q A W) (w : R) (s : sys) (r : Request).

(** X14: [Handle] reads the method, the path and the remote address only
    to log them.  Two requests with the same query string and the same
    context, whatever their method, path and remote address, end the same
    way, make the same calls with the same arguments on the accessor and
    on the writer, and leave the accessor in the same state. *)
Theorem Handle_ignores_method_and_path h w s r r' :
  Query r' = Query r ->
  Ctx r' = Ctx r ->
  fst (serve h w s r') = fst (serve h w s r) /\
  calls (snd (serve h w s r')) = calls (snd (serve h w s r)) /\
  querier (handler (snd (serve h w s r'))) = querier (handler (snd (serve h w s r))).
Proof.
  intros HQ HC.
  assert (Hctx : handle_ctx r' = handle_ctx r)
    by (unfold handle_ctx; rewrite HC; reflexivity).
  destruct (decoder h zero (Query r)) as [query [e|]] eqn:Hdec.
  { destruct (serve_decode_error h w s r query e Hdec)
      as (? & ? & ? & ? & _ & ->).
    rewrite <- HQ in Hdec.
    destruct (serve_decode_error h w s r' query e Hdec)
      as (? & ? & ? & ? & _ & ->).
    repeat split. }
  assert (Hdec' : decoder h zero (Query r') = (query, None))
    by (rewrite HQ; exact Hdec).
  destruct (validate h query) as [e|] eqn:Hval.
  { destruct (serve_validate_error h w s r query e Hdec Hval)
      as (? & ? & ? & ? & _ & ->).
    destruct (serve_validate_error h w s r' query e Hdec' Hval)
      as (? & ? & ? & ? & _ & ->).
    repeat split. }
  destruct (window query) as [offset limit] eqn:Hwin.
  destruct (List (querier h) (handle_ctx r) query offset limit)
    as [a [items [e|]]] eqn:HList.
  { destruct (serve_List_error h w s r query offset limit a items e
                Hdec Hval Hwin HList) as (? & ? & ? & ? & _ & ->).
    rewrite <- Hctx in HList.
    destruct (serve_List_error h w s r' query offset limit a items e
                Hdec' Hval Hwin HList) as (? & ? & ? & ? & _ & ->).
    rewrite Hctx. repeat split. }
  destruct (Count a (handle_ctx r) query) as [a' [total [e|]]] eqn:HCount.
  { destruct (serve_Count_error h w s r query offset limit a items a' total e
                Hdec Hval Hwin HList HCount) as (? & ? & ? & ? & _ & ->).
    rewrite <- Hctx in HList, HCount.
    destruct (serve_Count_error h w s r' query offset limit a items a' total e
                Hdec' Hval Hwin HList HCount) as (? & ? & ? & ? & _ & ->).
    rewrite Hctx. repeat split. }
  destruct (GoInt.quo offset limit) as [page|] eqn:Hquo.
  - destruct (serve_success h w s r query offset limit a items a' total page
                Hdec Hval Hwin HList HCount Hquo)
      as (? & ? & ? & ? & ? & ? & _ & ->).
    rewrite <- Hctx in HList, HCount.
    destruct (serve_success h w s r' query offset limit a items a' total page
                Hdec' Hval Hwin HList HCount Hquo)
      as (? & ? & ? & ? & ? & ? & _ & ->).
    rewrite Hctx. repeat split.
  - assert (limit = 0) as ->.
    { unfold GoInt.quo in Hquo.
      destruct (Z.eqb_spec limit 0); [assumption | discriminate]. }
    destruct (serve_divide_by_zero h w s r query offset a items a' total
                Hdec Hval Hwin HList HCount) as (? & ->).
    rewrite <- Hctx in HList, HCount.
    destruct (serve_divide_by_zero h w s r' query offset a items a' total
                Hdec' Hval Hwin HList HCount) as (? & ->).
    rewrite Hctx. repeat split.
Qed.

End RequestFields.

(** ** Witnesses for the further properties *)

(** The client has gone: the success payload is encoded once, in vain,
    and nothing follows. *)
Lemma Handle_success_body_witness :
  let gone : @Recorder string :=
    {| ops := []; encode_err := fun _ => Some (errors_New "write: broken pipe") |} in
  let h := test_handler (mock (["item1"%string], None) (1, None)) in
  ops (rw (snd (serve h gone boot (page_request "1" "10"))))
  = [OpHeaderSet "Content-Type" "application/json";
     OpWriteHeader 200;
     OpEncode (ListResult ["item1"%string] 1 1 10)].
Proof.
  cbv zeta.
  rewrite (Handle_success_body
    (test_handler (mock (["item1"%string], None) (1, None)))
    {| ops := []; encode_err := fun _ => Some (errors_New "write: broken pipe") |}
    boot (page_request "1" "10")
    {| TestQuery_PaginatedQuery := {| Page := 1; PageSize := 10 |};
       TestQuery_Name := "" |} 0 10
    {| List_Return := (["item1"%string], None); Count_Return := (1, None);
       Calls := ["List"%string] |}
    ["item1"%string]
    {| List_Return := (["item1"%string], None); Count_Return := (1, None);
       Calls := ["List"%string; "Count"%string] |}
    1 0); vm_compute; reflexivity.
Defined.

(** A page that is not a number, and a client that has gone: the
    envelope says "bad request", the fallback "internal server error". *)
Lemma Handle_bad_request_body_witness :
  let gone : @Recorder string :=
    {| ops := []; encode_err := fun _ => Some (errors_New "write: broken pipe") |} in
  let h := test_handler (mock (["item1"%string], None) (1, None)) in
  ops (rw (snd (serve h gone boot (page_request "abc" "10"))))
  = [OpHeaderSet "Content-Type" "application/json";
     OpWriteHeader 400;
     OpEncode (Struct {| Status := 400; Message := "bad request"; Details := Nil |});
     OpHttpError "internal server error" 500].
Proof.
  cbv zeta.
  rewrite (Handle_bad_request_body
    (test_handler (mock (["item1"%string], None) (1, None)))
    {| ops := []; encode_err := fun _ => Some (errors_New "write: broken pipe") |}
    boot (page_request "abc" "10")).
  - vm_compute. reflexivity.
  - left. vm_compute. discriminate.
Defined.

(** Pages 3 and 4 of size 10: offsets 20 and 30. *)
Lemma window_tiles_witness :
  let q1 := {| TestQuery_PaginatedQuery := {| Page := 3; PageSize := 10 |};
               TestQuery_Name := "" |} in
  let q2 := {| TestQuery_PaginatedQuery := {| Page := 4; PageSize := 10 |};
               TestQuery_Name := "" |} in
  window (T:=string) q1 = (20, 10) /\
  fst (window (T:=string) q2) = fst (window (T:=string) q1) + snd (window (T:=string) q1).
Proof.
  cbv zeta. split; [reflexivity|].
  refine (proj1 (proj2 (proj2 (window_tiles (T:=string)
    {| TestQuery_PaginatedQuery := {| Page := 3; PageSize := 10 |};
       TestQuery_Name := "" |}
    {| TestQuery_PaginatedQuery := {| Page := 4; PageSize := 10 |};
       TestQuery_Name := "" |}
    TestQuery_GetPagination 3 10 _ _ _ _ _ _)))).
  - reflexivity.
  - reflexivity.
  - reflexivity.
  - lia.
  - lia.
  - vm_compute. discriminate.
Defined.

(** Page [2^62 + 1] of size 4: the product [2^64] wraps to offset 0. *)
Lemma window_wraps_witness :
  let q := {| TestQuery_PaginatedQuery :=
                {| Page := 4611686018427387905; PageSize := 4 |};
              TestQuery_Name := "" |} in
  window (T:=string) q = (0, 4) /\
  GoInt.in_range (fst (window (T:=string) q)).
Proof.
  cbv zeta. split; [reflexivity|].
  refine (proj1 (proj2 (window_wraps (T:=string)
    {| TestQuery_PaginatedQuery :=
         {| Page := 4611686018427387905; PageSize := 4 |};
       TestQuery_Name := "" |}
    TestQuery_GetPagination 4611686018427387905 4 _ _))); reflexivity.
Defined.

(** [TestListHandler_Handle_QuerierError]: the error of [List] is in the
    log. *)
Lemma Handle_logs_accessor_error_witness :
  let h := test_handler (mock ([], Some assert_AnError) (0, None)) in
  exists msg before after,
    (msg = "unable to list items"%string \/ msg = "unable to count items"%string) /\
    log (env (snd (serve h NewRecorder boot (page_request "1" "10"))))
    = log boot ++ before
      ++ [mkRecord LevelError msg [("error"%string, Attr error assert_AnError)]]
      ++ after.
Proof.
  cbv zeta.
  apply (Handle_logs_accessor_error
    (test_handler (mock ([], Some assert_AnError) (0, None)))
    NewRecorder boot (page_request "1" "10") assert_AnError).
  vm_compute. reflexivity.
Defined.

(** The same query string sent by [DELETE] to another path from another
    address. *)
Lemma Handle_ignores_method_and_path_witness :
  let h := test_handler (mock (["item1"%string], None) (1, None)) in
  let r := page_request "1" "10" in
  let r' := {| Method := "DELETE"; Path := "/admin"; RemoteAddr := "203.0.113.9:4711";
               Query := Query r; Ctx := Background |} in
  fst (serve h NewRecorder boot r') = fst (serve h NewRecorder boot r) /\
  calls (snd (serve h NewRecorder boot r')) = calls (snd (serve h NewRecorder boot r)).
Proof.
  cbv zeta.
  destruct (Handle_ignores_method_and_path
    (test_handler (mock (["item1"%string], None) (1, None)))
    NewRecorder boot (page_request "1" "10")
    {| Method := "DELETE"; Path := "/admin"; RemoteAddr := "203.0.113.9:4711";
       Query := Query (page_request "1" "10"); Ctx := Background |}
    eq_refl eq_refl) as (Hout & Hcalls & _).
  split; assumption.
Defined.
